(** * Kanban board materialization: a shallow embedding of the plugin's core

    The development follows the TypeScript sources file by file:
    - [Js]              the fragment of JavaScript values and operators the
                        sources rely on (truthiness, [===], [||], [??],
                        property reads, thrown faults);
    - [Validator]       src/utils/validation.ts;
    - [BoardParser]     src/board/BoardParser.ts;
    - [DataviewHelper]  src/utils/dataview.ts;
    - [FrontmatterHelper], [CardManager]  src/utils/frontmatter.ts,
                        src/card/CardManager.ts;
    - [QueryExecutor]   src/board/QueryExecutor.ts;
    - [CardRenderer], [ColumnRenderer]  src/board/CardRenderer.ts,
                        src/board/ColumnRenderer.ts;
    - [BoardView]       src/board/BoardView.ts.

    Frontmatter objects are finite maps from field names to values; the host
    application (vault, metadata cache, Dataview engine, clock, console) is an
    explicit [World] threaded through a state-and-exception monad. *)

From stdpp Require Import gmap strings list fin_maps pretty.
From Stdlib Require Import ZArith Lia.

Set Warnings "-register-all".
Set Default Proof Using "Type".

(* ===================================================================== *)
(** ** JavaScript values *)
(* ===================================================================== *)

Module Js.

(** Values that YAML frontmatter and Dataview results are made of.
    Numbers are the integers plus [NaN], an integer being given by its
    decimal digits; fractions and infinities are not values here, nor are
    functions.  Objects are plain data: none has a field named [toString] of
    its own, so that turning a value into text never throws. *)
Inductive Val : Type :=
| Undefined
| Null
| Bool (b : bool)
| Num (n : Z)
| NaN
| Str (s : string)
| Arr (items : list Val)
| Obj (props : gmap string Val).

(** A thrown value: an [Error] instance with its [message], or any other
    value, kept as the text [String(error)] gives for it. *)
Inductive Thrown : Type :=
| ErrorInstance (message : string)
| NonError (asString : string).

(** [error instanceof Error ? error.message : String(error)] *)
Definition errorMessage (e : Thrown) : string :=
  match e with
  | ErrorInstance message => message
  | NonError asString => asString
  end.

Definition TypeError (message : string) : Thrown := ErrorInstance message.

(** Result of evaluating an expression that may throw. *)
Inductive Res (A : Type) : Type :=
| Ok (a : A)
| Throw (e : Thrown).
Arguments Ok {A} a.
Arguments Throw {A} e.

#[global] Instance res_ret : MRet Res := @Ok.
#[global] Instance res_bind : MBind Res := λ A B f m,
  match m with
  | Ok a => f a
  | Throw e => Throw e
  end.
#[global] Instance res_fmap : FMap Res := λ A B f m,
  match m with
  | Ok a => Ok (f a)
  | Throw e => Throw e
  end.

(** ToBoolean *)
Definition truthy (v : Val) : bool :=
  match v with
  | Undefined | Null | NaN => false
  | Bool b => b
  | Num n => negb (n =? 0)%Z
  | Str s => negb (String.eqb s "")
  | Arr _ | Obj _ => true
  end.

(** [a === b].  Arrays and objects compare by reference; the two sides of
    every [===] in the sources come from different documents (or from a
    literal), so two such operands are never the same reference. *)
Definition strict_eq (a b : Val) : bool :=
  match a, b with
  | Undefined, Undefined => true
  | Null, Null => true
  | Bool x, Bool y => bool_decide (x = y)
  | Num x, Num y => (x =? y)%Z
  | Str x, Str y => String.eqb x y
  | _, _ => false
  end.

(** [a || b] and [a ?? b] *)
Definition or_else (a b : Val) : Val := if truthy a then a else b.
Definition nullish (v : Val) : bool :=
  match v with Undefined | Null => true | _ => false end.
Definition coalesce (a b : Val) : Val := if nullish a then b else a.

Definition isArray (v : Val) : bool :=
  match v with Arr _ => true | _ => false end.
Definition isString (v : Val) : bool :=
  match v with Str _ => true | _ => false end.

(** [o[k]] on a plain object: a missing field reads as [undefined]. *)
Definition field (o : gmap string Val) (k : string) : Val :=
  default Undefined (o !! k).

Definition typeName (v : Val) : string :=
  match v with Undefined => "undefined" | _ => "null" end.

(** [v.k] for a named (non-index, non-method) property [k].  Reading a
    property of [undefined] or [null] throws a TypeError. *)
Definition prop (v : Val) (k : string) : Res Val :=
  match v with
  | Undefined | Null =>
      Throw (TypeError ("Cannot read properties of " +:+ typeName v
                        +:+ " (reading '" +:+ k +:+ "')"))
  | Obj o => Ok (field o k)
  | Arr items =>
      Ok (if String.eqb k "length" then Num (Z.of_nat (length items))
          else Undefined)
  | Str s =>
      Ok (if String.eqb k "length" then Num (Z.of_nat (String.length s))
          else Undefined)
  | Bool _ | Num _ | NaN => Ok Undefined
  end.

(** [v?.k] *)
Definition opt_prop (v : Val) (k : string) : Val :=
  match prop v k with
  | Ok x => x
  | Throw _ => Undefined
  end.

(** The digits of a number without its trailing zeros. *)
Fixpoint stripZeros (digits : string) : string :=
  match digits with
  | EmptyString => EmptyString
  | String c rest =>
      if Ascii.eqb c (Ascii.ascii_of_nat 48) && String.eqb (stripZeros rest) ""
      then EmptyString
      else String c (stripZeros rest)
  end.

(** [String(n)] for an integer: its digits, and from 10^21 on the first
    digit, the other digits up to the trailing zeros as a fraction, and the
    exponent; 10^21 reads 1e+21. *)
Definition numberToString (n : Z) : string :=
  if (Z.abs n <? 10 ^ 21)%Z then pretty n
  else
    let digits := pretty (Z.abs n) in
    (if (n <? 0)%Z then "-" else "")
    +:+ match stripZeros digits with
        | String c rest =>
            String c (if String.eqb rest "" then "" else "." +:+ rest)
        | EmptyString => ""
        end
    +:+ "e+" +:+ pretty (String.length digits - 1).

(** [String(v)], as a template literal interpolates a value. *)
Fixpoint toString (v : Val) : string :=
  match v with
  | Undefined => "undefined"
  | Null => "null"
  | Bool true => "true"
  | Bool false => "false"
  | Num n => numberToString n
  | NaN => "NaN"
  | Str s => s
  | Arr items =>
      (fix join (l : list Val) : string :=
         match l with
         | [] => ""
         | x :: rest =>
             let here := if nullish x then "" else toString x in
             match rest with
             | [] => here
             | _ :: _ => here +:+ "," +:+ join rest
             end
         end) items
  | Obj _ => "[object Object]"
  end.

(** [arr.map(f)] where the callback may throw; calling [.map] on a value
    that is not an array is a TypeError ([undefined] is not a function). *)
Definition array_map {B} (what : string) (v : Val) (f : Val → Res B)
  : Res (list B) :=
  match v with
  | Arr items => mapM f items
  | Undefined | Null =>
      Throw (TypeError ("Cannot read properties of " +:+ typeName v
                        +:+ " (reading 'map')"))
  | _ => Throw (TypeError (what +:+ ".map is not a function"))
  end.

End Js.

Import Js.

(** A frontmatter block, and more generally a plain object. *)
Abbreviation Object := (gmap string Val).

(* ===================================================================== *)
(** ** types.ts *)
(* ===================================================================== *)

Record ColumnConfig : Type := mkColumnConfig {
  name : Val;
  status : Val;      (* the value that will be set in card frontmatter *)
  color : Val;
  limit : Val;       (* WIP limit (optional) *)
  collapsed : Val;
}.

Record BoardConfig : Type := mkBoardConfig {
  boardId : Val;
  columns : list ColumnConfig;
  cardTemplate : Val;
  autoRefresh : Val;
  refreshInterval : Val;
}.

Record TFile : Type := mkTFile {
  path : string;
  basename : string;
}.

Record CardFile : Type := mkCardFile {
  cf_file : TFile;
  cf_path : string;
  cf_name : string;
}.

Record CardData : Type := mkCardData {
  file : CardFile;
  metadata : Object;
  title : string;
  content : string;
}.

Record KanbanColumn : Type := mkKanbanColumn {
  config : ColumnConfig;
  cards : list CardData;
}.

Record DataviewQueryResult : Type := mkQueryResult {
  successful : Val;
  value : Val;
  error : Val;
}.

(** Obsidian's [CachedMetadata], reduced to the field the plugin reads. *)
Record CachedMetadata : Type := mkCache {
  frontmatter : option Object;
}.

(** The JavaScript object a typed record is at run time. *)
Definition ColumnConfig_js (c : ColumnConfig) : Val :=
  Obj (<["name" := name c]> (<["status" := status c]> (<["color" := color c]>
      (<["limit" := limit c]> (<["collapsed" := collapsed c]> ∅))))).

Definition BoardConfig_js (c : BoardConfig) : Val :=
  Obj (<["type" := Str "kanban-board"]> (<["boardId" := boardId c]>
      (<["columns" := Arr (ColumnConfig_js <$> columns c)]>
      (<["cardTemplate" := cardTemplate c]>
      (<["autoRefresh" := autoRefresh c]>
      (<["refreshInterval" := refreshInterval c]> ∅)))))).

(** Text processing that the sources delegate to regular expressions or to
    the host; no property below depends on what these compute. *)
Class TextOps : Type := {
  (** first group of the heading search of [extractTitle], run on the
      content with its leading frontmatter block removed *)
  headingMatch : string → option string;
  (** first group of the search for a fenced dataviewjs block *)
  dataviewjsMatch : string → option string;
  (** [String.prototype.trim] *)
  trim : string → string;
  (** the document text once its frontmatter block is rewritten *)
  writeFrontmatter : Object → string → string;
  (** the text reads as a number above zero, as [text > 0] tests it *)
  numeralPositive : string → bool;
}.

(** [x > 0]: the comparison turns [x] into a number. *)
Definition positive `{TextOps} (x : Val) : bool :=
  match x with
  | Num n => (0 <? n)%Z
  | Bool b => b
  | Str s => numeralPositive s
  | Arr _ => numeralPositive (toString x)
  | Undefined | Null | NaN | Obj _ => false
  end.

(* ===================================================================== *)
(** ** utils/validation.ts *)
(* ===================================================================== *)

Module Validator.

Record Validation : Type := mkValidation {
  valid : bool;
  errors : list string;
}.

(** Body of the [forEach] callback, for the column at 0-based [index]. *)
Definition checkColumn (col : Val) (index : nat) : Res (list string) :=
  n ← prop col "name";
  s ← prop col "status";
  mret ((if truthy n then []
         else ["Column " +:+ pretty (index + 1) +:+ " missing name"])
        ++ (if truthy s then []
            else ["Column " +:+ pretty (index + 1)
                  +:+ " missing status value"])).

Fixpoint checkColumns (cols : list Val) (index : nat) : Res (list string) :=
  match cols with
  | [] => mret []
  | col :: rest =>
      here ← checkColumn col index;
      more ← checkColumns rest (S index);
      mret (here ++ more)
  end.

(** [config.columns?.forEach(...)] *)
Definition forEachColumn (cols : Val) : Res (list string) :=
  match cols with
  | Undefined | Null => mret []
  | Arr items => checkColumns items 0
  | _ => Throw (TypeError "config.columns?.forEach is not a function")
  end.

Definition validateBoardConfig (config : Val) : Res Validation :=
  cols ← prop config "columns";
  let e1 := if negb (truthy cols) || negb (isArray cols)
            then ["Board must have columns defined"] else [] in
  len ← (if truthy cols then prop cols "length" else mret Undefined);
  let e2 := if truthy cols && strict_eq len (Num 0)
            then ["Board must have at least one column"] else [] in
  e3 ← forEachColumn cols;
  let errors := e1 ++ e2 ++ e3 in
  mret {| valid := bool_decide (errors = []); errors := errors |}.

End Validator.

(* ===================================================================== *)
(** ** board/BoardParser.ts *)
(* ===================================================================== *)

Module BoardParser.

(** [cache?.frontmatter?.type === "kanban-board"] *)
Definition isBoardFile (cache : option CachedMetadata) : bool :=
  match cache with
  | Some c =>
      match frontmatter c with
      | Some fm => strict_eq (field fm "type") (Str "kanban-board")
      | None => false
      end
  | None => false
  end.

(** The callback of [(fm.columns || []).map(...)]. *)
Definition parseColumn (col : Val) : Res ColumnConfig :=
  n ← prop col "name";
  s ← prop col "status";
  c ← prop col "color";
  l ← prop col "limit";
  k ← prop col "collapsed";
  mret {| name := or_else n (Str "Unnamed");
          status := or_else s (Str "");
          color := c;
          limit := l;
          collapsed := coalesce k (Bool false) |}.

Definition parseBoardConfig (cache : CachedMetadata)
  : Res (option BoardConfig) :=
  if negb (isBoardFile (Some cache)) then mret None
  else
    match frontmatter cache with
    | None => Throw (TypeError "Cannot read properties of undefined")
    | Some fm =>
        cols ← array_map "(fm.columns || [])"
                 (or_else (field fm "columns") (Arr [])) parseColumn;
        mret (Some {| boardId := or_else (field fm "board-id") (Str "");
                      columns := cols;
                      cardTemplate := field fm "card-template";
                      autoRefresh :=
                        coalesce (field fm "auto-refresh") (Bool true);
                      refreshInterval :=
                        coalesce (field fm "refresh-interval") (Num 30) |})
    end.

Definition extractDataviewQuery `{TextOps} (content : string)
  : option string :=
  match dataviewjsMatch content with
  | Some g => if String.eqb g "" then None else Some (trim g)
  | None => None
  end.

(** The double-quote character of the template literal. *)
Definition dquote : string := String (Ascii.ascii_of_nat 34) EmptyString.

Definition getDefaultQuery (boardId : Val) : string :=
  "dv.pages().where(p => p.board === " +:+ dquote +:+ toString boardId
    +:+ dquote +:+ " && p.status)".

End BoardParser.

(* ===================================================================== *)
(** ** The host application *)
(* ===================================================================== *)

(** What the vault holds at a path: a folder, or a document with its base
    name, its text and the frontmatter the metadata cache reports for it. *)
Inductive Entry : Type :=
| Folder
| Document (base : string) (text : string) (fm : option Object).

Inductive AbstractFile : Type :=
| AFolder
| AFile (f : TFile).

(** What a call to the Dataview engine does. *)
Inductive EngineOutcome : Type :=
| Returns (result : Val)
| Throws (e : Thrown).

(** One [console.error(label, detail)] call. *)
Inductive LogDetail : Type :=
| LogVal (v : Val)
| LogThrown (e : Thrown).

Record World : Type := mkWorld {
  vault : gmap string Entry;
  (** [app.plugins.plugins.dataview?.api]: the engine evaluates a query
      string against the corpus, from a source path. *)
  dataview : option (gmap string Entry → string → string → EngineOutcome);
  (** [new Date().toISOString()] *)
  clock : string;
  console : list (string * LogDetail);
  (** every call made to [dataviewAPI.query], oldest first *)
  queries : list (string * string);
}.

(** State and exceptions: a computation runs in a world, returns or throws,
    and leaves a world behind either way. *)
Definition M (A : Type) : Type := World → Res A * World.

#[global] Instance m_ret : MRet M := λ A a w, (Ok a, w).
#[global] Instance m_bind : MBind M := λ A B f m w,
  match m w with
  | (Ok a, w') => f a w'
  | (Throw e, w') => (Throw e, w')
  end.

Definition lift {A} (r : Res A) : M A := λ w, (r, w).
Definition ask : M World := λ w, (Ok w, w).
Definition throw {A} (e : Thrown) : M A := λ w, (Throw e, w).

(** [try { body } catch (error) { handler error }] *)
Definition try_catch {A} (body : M A) (handler : Thrown → M A) : M A := λ w,
  match body w with
  | (Ok a, w') => (Ok a, w')
  | (Throw e, w') => handler e w'
  end.

Definition console_error (label : string) (detail : LogDetail) : M unit := λ w,
  (Ok tt, mkWorld (vault w) (dataview w) (clock w)
            (console w ++ [(label, detail)]) (queries w)).

(** [app.vault.getAbstractFileByPath(path)] *)
Definition getAbstractFileByPath (w : World) (p : string)
  : option AbstractFile :=
  match vault w !! p with
  | Some Folder => Some AFolder
  | Some (Document base _ _) => Some (AFile (mkTFile p base))
  | None => None
  end.

(** [app.metadataCache.getFileCache(file)] *)
Definition getFileCache (w : World) (f : TFile) : option CachedMetadata :=
  match vault w !! path f with
  | Some (Document _ _ fm) => Some (mkCache fm)
  | _ => None
  end.

(** [app.vault.read(file)] *)
Definition vault_read (f : TFile) : M string := λ w,
  match vault w !! path f with
  | Some (Document _ text _) => (Ok text, w)
  | _ => (Throw (ErrorInstance ("ENOENT: no such file, open '" +:+ path f
                                +:+ "'")), w)
  end.

(** [app.fileManager.processFrontMatter(file, fn)]: the host reads the
    document's frontmatter (an empty object when it has none), lets [fn]
    mutate it and writes the document back. *)
Definition processFrontMatter `{TextOps} (f : TFile) (fn : Object → Object)
  : M unit := λ w,
  match vault w !! path f with
  | Some (Document base text fm) =>
      let fm' := fn (default ∅ fm) in
      (Ok tt, mkWorld (<[path f := Document base (writeFrontmatter fm' text)
                                     (Some fm')]> (vault w))
                (dataview w) (clock w) (console w) (queries w))
  | _ => (Throw (ErrorInstance ("ENOENT: no such file, open '" +:+ path f
                                +:+ "'")), w)
  end.

(** [await dataviewAPI.query(query, sourcePath)] *)
Definition engine_query
    (api : gmap string Entry → string → string → EngineOutcome)
    (query sourcePath : string) : M Val := λ w,
  let w' := mkWorld (vault w) (dataview w) (clock w) (console w)
              (queries w ++ [(query, sourcePath)]) in
  match api (vault w) query sourcePath with
  | Returns result => (Ok result, w')
  | Throws e => (Throw e, w')
  end.

(* ===================================================================== *)
(** ** utils/dataview.ts *)
(* ===================================================================== *)

Module DataviewHelper.

(** [dataviewAPI !== undefined].  The helper keeps the handle it found
    when it was built; nothing in this model changes it afterwards. *)
Definition isAvailable (w : World) : bool :=
  match dataview w with Some _ => true | None => false end.

Definition executeQuery (query sourcePath : string) : M DataviewQueryResult :=
  w ← ask;
  match dataview w with
  | None =>
      mret {| successful := Bool false;
              value := Undefined;
              error := Str "Dataview plugin is not installed or enabled" |}
  | Some api =>
      try_catch
        (result ← engine_query api query sourcePath;
         s ← lift (prop result "successful");
         v ← lift (prop result "value");
         e ← lift (prop result "error");
         mret {| successful := s; value := v; error := e |})
        (λ err,
         mret {| successful := Bool false;
                 value := Undefined;
                 error := Str (errorMessage err) |})
  end.

(** The callback of [result.map(...)]. *)
Definition pageItem (item : Val) : Res Val :=
  if isString item then mret item
  else
    f ← prop item "file";
    if truthy (opt_prop f "path") then mret (opt_prop f "path")
    else
      p ← prop item "path";
      if truthy p then mret p else mret Null.

(** The recursive call is on [result.values]; it is taken from the map of
    recursive results so that the definition is structural. *)
Fixpoint parsePageResults (result : Val) : Res (list Val) :=
  if negb (truthy result) then mret []
  else
    match result with
    | Arr items => List.filter truthy <$> mapM pageItem items
    | Obj o =>
        if truthy (field o "values")
        then default (mret []) ((parsePageResults <$> o) !! "values")
        else mret []
    | _ => mret []
    end.

End DataviewHelper.

(* ===================================================================== *)
(** ** utils/frontmatter.ts *)
(* ===================================================================== *)

Module FrontmatterHelper.

(** The object literal of [getCardMetadata]: six named fields, then the
    spread of the frontmatter, whose own fields win. *)
Definition cardMetadata (fm : Object) : Object :=
  fm ∪ <["status" := field fm "status"]>
        (<["priority" := field fm "priority"]>
        (<["due" := field fm "due"]>
        (<["assignee" := field fm "assignee"]>
        (<["board" := field fm "board"]>
        (<["tags" := or_else (field fm "tags") (Arr [])]> ∅))))).

Definition getCardMetadata (w : World) (f : TFile) : option Object :=
  match getFileCache w f with
  | Some cache =>
      match frontmatter cache with
      | Some fm => Some (cardMetadata fm)
      | None => None
      end
  | None => None
  end.

(** The mutation [updateCardStatus] hands to [processFrontMatter]. *)
Definition setStatus (newStatus now : string) (fm : Object) : Object :=
  <["last-updated" := Str now]> (<["status" := Str newStatus]> fm).

Definition updateCardStatus `{TextOps} (f : TFile) (newStatus : string)
  : M unit :=
  w ← ask;
  processFrontMatter f (setStatus newStatus (clock w)).

End FrontmatterHelper.

(* ===================================================================== *)
(** ** card/CardManager.ts *)
(* ===================================================================== *)

Module CardManager.

Definition extractTitle `{TextOps} (content : string) : option string :=
  match headingMatch content with
  | Some t => if String.eqb t "" then None else Some t
  | None => None
  end.

Definition loadCard `{TextOps} (f : TFile) : M (option CardData) :=
  w ← ask;
  match FrontmatterHelper.getCardMetadata w f with
  | None => mret None
  | Some md =>
      content ← vault_read f;
      let title := default (basename f) (extractTitle content) in
      mret (Some {| file := {| cf_file := f; cf_path := path f;
                               cf_name := basename f |};
                    metadata := md;
                    title := title;
                    content := content |})
  end.

Fixpoint loadCards `{TextOps} (files : list TFile) : M (list CardData) :=
  match files with
  | [] => mret []
  | f :: rest =>
      card ← loadCard f;
      more ← loadCards rest;
      mret (match card with Some c => c :: more | None => more end)
  end.

Definition updateStatus `{TextOps} (f : TFile) (newStatus : string)
  : M unit :=
  FrontmatterHelper.updateCardStatus f newStatus.

End CardManager.

(* ===================================================================== *)
(** ** board/QueryExecutor.ts *)
(* ===================================================================== *)

Module QueryExecutor.

(** Paths that resolve to a [TFile], in order.  The host's file table is
    keyed by strings, so a path that is not a string is coerced. *)
Definition getFilesFromPaths (w : World) (paths : list Val) : list TFile :=
  omap (λ p, match getAbstractFileByPath w (toString p) with
             | Some (AFile f) => Some f
             | _ => None
             end) paths.

Definition executeQuery `{TextOps} (query sourcePath : string)
  : M (list CardData) :=
  result ← DataviewHelper.executeQuery query sourcePath;
  if negb (truthy (successful result)) then
    _ ← console_error "Query execution failed:" (LogVal (error result));
    mret []
  else
    filePaths ← lift (DataviewHelper.parsePageResults (value result));
    w ← ask;
    CardManager.loadCards (getFilesFromPaths w filePaths).

End QueryExecutor.

(* ===================================================================== *)
(** ** board/CardRenderer.ts and board/ColumnRenderer.ts *)
(* ===================================================================== *)

(** Drawing makes elements of the page.  What the board view depends on is
    whether drawing returns or throws, and with what. *)

Module CardRenderer.

Definition hash : Ascii.ascii := Ascii.ascii_of_nat 35.

(** [tag.replace("#", "")]: the first hash sign is removed. *)
Fixpoint dropFirstHash (s : string) : string :=
  match s with
  | EmptyString => EmptyString
  | String c rest =>
      if Ascii.eqb c hash then rest else String c (dropFirstHash rest)
  end.

(** The text of the span of one tag; [replace] exists on strings only. *)
Definition tagText (tag : Val) : Res string :=
  match tag with
  | Str s => Ok (dropFirstHash s)
  | Undefined | Null =>
      Throw (TypeError ("Cannot read properties of " +:+ typeName tag
                        +:+ " (reading 'replace')"))
  | _ => Throw (TypeError "tag.replace is not a function")
  end.

(** [renderTags] on an array of tags: the texts of the spans it creates,
    the first three tags and then the count of the others. *)
Definition renderTags (tags : list Val) : Res (list string) :=
  shown ← mapM tagText (take 3 tags);
  mret (shown ++ (if 3 <? length tags
                  then ["+" +:+ pretty (length tags - 3)] else [])).

(** [renderTags(container, tags)] for the value a card has as its tags:
    [slice] exists on arrays and on strings, [forEach] on arrays only. *)
Definition renderTagsOf (tags : Val) : Res unit :=
  match tags with
  | Arr items => _ ← renderTags items; mret tt
  | Str _ => Throw (TypeError "displayTags.forEach is not a function")
  | Undefined | Null =>
      Throw (TypeError ("Cannot read properties of " +:+ typeName tags
                        +:+ " (reading 'slice')"))
  | _ => Throw (TypeError "tags.slice is not a function")
  end.

(** [renderAssignee]: the name is the assignee when that is a string, else
    its [path]; [replace] exists on strings only. *)
Definition renderAssignee (assignee : Val) : Res unit :=
  name ← (if isString assignee then mret assignee else prop assignee "path");
  match name with
  | Str _ => mret tt
  | Undefined | Null =>
      Throw (TypeError ("Cannot read properties of " +:+ typeName name
                        +:+ " (reading 'replace')"))
  | _ => Throw (TypeError "name.replace is not a function")
  end.

(** [render(card, container)].  The priority and the due date are turned
    into text and a date, which does not throw; the assignee and the tags
    are drawn by the two functions above. *)
Definition render `{TextOps} (card : CardData) : Res unit :=
  _ ← (if truthy (field (metadata card) "assignee")
       then renderAssignee (field (metadata card) "assignee")
       else mret tt);
  if truthy (field (metadata card) "tags")
     && positive (opt_prop (field (metadata card) "tags") "length")
  then renderTagsOf (field (metadata card) "tags")
  else mret tt.

End CardRenderer.

Module ColumnRenderer.

(** [render(config, cards, container, ...)]: the header, the cards in
    order, the add button and the limit test.  The header, the color and
    the limit only turn values into text or numbers; a fault can come from
    a card alone, and it ends the loop. *)
Definition render `{TextOps} (config : ColumnConfig) (cards : list CardData)
  : Res unit :=
  _ ← mapM CardRenderer.render cards;
  mret tt.

End ColumnRenderer.

(* ===================================================================== *)
(** ** board/BoardView.ts *)
(* ===================================================================== *)

Module BoardView.

(** What the container element shows: nothing, the list of configuration
    errors, the loading element (which [ErrorText] turns into an error
    text), the board, or a board left unfinished by a fault and the error
    element added after it. *)
Inductive Display : Type :=
| Blank
| ConfigErrors (errors : list string)
| Loading
| Board (columns : list KanbanColumn)
| ErrorText (text : string)
| BoardError (text : string).

Record View : Type := mkView {
  boardFile : TFile;
  view_config : BoardConfig;
  view_cards : list CardData;
  view_columns : list KanbanColumn;
  container : Display;
}.

Definition with_container (v : View) (d : Display) : View :=
  mkView (boardFile v) (view_config v) (view_cards v) (view_columns v) d.
Definition with_cards (v : View) (cs : list CardData) : View :=
  mkView (boardFile v) (view_config v) cs (view_columns v) (container v).
Definition with_columns (v : View) (cols : list KanbanColumn) : View :=
  mkView (boardFile v) (view_config v) (view_cards v) cols (container v).

(** [card.metadata.status === columnConfig.status] *)
Definition inColumn (columnConfig : ColumnConfig) (card : CardData) : bool :=
  strict_eq (field (metadata card) "status") (status columnConfig).

Definition group (cfg : BoardConfig) (cs : list CardData)
  : list KanbanColumn :=
  (λ columnConfig,
     {| config := columnConfig;
        cards := List.filter (inColumn columnConfig) cs |})
  <$> columns cfg.

Definition groupCards (v : View) : View :=
  with_columns v (group (view_config v) (view_cards v)).

(** The query of the board: its dataviewjs block, else the default. *)
Definition boardQuery `{TextOps} (cfg : BoardConfig) (content : string)
  : string :=
  match BoardParser.extractDataviewQuery content with
  | Some q =>
      if String.eqb q "" then BoardParser.getDefaultQuery (boardId cfg)
      else q
  | None => BoardParser.getDefaultQuery (boardId cfg)
  end.

Definition loadCards `{TextOps} (v : View) : M View :=
  content ← vault_read (boardFile v);
  cs ← QueryExecutor.executeQuery (boardQuery (view_config v) content)
         (path (boardFile v));
  mret (groupCards (with_cards v cs)).

(** [renderBoard]: every column is drawn in turn. *)
Definition renderBoard `{TextOps} (v : View) : Res unit :=
  _ ← mapM (λ column, ColumnRenderer.render (config column) (cards column))
        (view_columns v);
  mret tt.

(** The [catch] branch of [render], run on the view as the fault found it:
    the message goes into the loading element when that is still in place,
    and into a new error element otherwise. *)
Definition showError (v : View) (err : Thrown) : M View :=
  _ ← console_error "Board render error:" (LogThrown err);
  mret (with_container v
          (match container v with
           | Loading => ErrorText ("Error: " +:+ errorMessage err)
           | _ => BoardError ("Error: " +:+ errorMessage err)
           end)).

(** [render].  The [try] block is written as two nested blocks with the
    same handler, so that the handler sees the view of the moment: a fault
    of [loadCards] leaves the cards and columns as they were, a fault of
    [renderBoard] comes after they are set and the loading element is
    removed. *)
Definition render `{TextOps} (v : View) : M View :=
  validation ← lift (Validator.validateBoardConfig
                       (BoardConfig_js (view_config v)));
  if negb (Validator.valid validation) then
    mret (with_container v (ConfigErrors (Validator.errors validation)))
  else
    try_catch
      (v' ← loadCards (with_container v Loading);
       try_catch
         (_ ← lift (renderBoard v');
          mret (with_container v' (Board (view_columns v'))))
         (showError (with_container v' Blank)))
      (showError (with_container v Loading)).

(** The drop handler of a column: [targetStatus] is the column's
    [data-status], [cardPath] the dragged card's [data-path]. *)
Definition drop `{TextOps} (v : View) (targetStatus cardPath : string)
  : M View :=
  if String.eqb targetStatus "" || String.eqb cardPath "" then mret v
  else
    w ← ask;
    match getAbstractFileByPath w cardPath with
    | Some (AFile f) =>
        _ ← CardManager.updateStatus f targetStatus;
        render v
    | _ => mret v
    end.

End BoardView.

(* ===================================================================== *)
(** ** Vocabulary of the properties *)
(* ===================================================================== *)

(** The configuration passes [validateBoardConfig]. *)
Definition isValid (cfg : BoardConfig) : bool :=
  match Validator.validateBoardConfig (BoardConfig_js cfg) with
  | Ok r => Validator.valid r
  | Throw _ => false
  end.

(** Some declared column has the status of the card. *)
Definition hasColumn (cfg : BoardConfig) (card : CardData) : bool :=
  existsb (λ cc, BoardView.inColumn cc card) (columns cfg).

(** The declared columns whose status is the status of the card. *)
Definition matchingColumns (cfg : BoardConfig) (card : CardData)
  : list ColumnConfig :=
  List.filter (λ cc, BoardView.inColumn cc card) (columns cfg).

(** No card is a member of two materialized columns. *)
Definition atMostOneColumn (cols : list KanbanColumn) : Prop :=
  ∀ card i j a b,
    cols !! i = Some a → cols !! j = Some b →
    card ∈ cards a → card ∈ cards b → i = j.

(** [hay.includes(needle)] *)
Definition includes (hay needle : string) : bool :=
  match String.index 0 needle hay with
  | Some _ => true
  | None => false
  end.

(** A raw column entry whose [name] and [status] both read as non-empty
    (truthy) values, as [!col.name] and [!col.status] test them. *)
Definition hasNameAndStatus (col : Val) : Prop :=
  ∃ n s, prop col "name" = Ok n ∧ truthy n = true
         ∧ prop col "status" = Ok s ∧ truthy s = true.

Definition withBoardId (cfg : BoardConfig) (b : Val) : BoardConfig :=
  {| boardId := b; columns := columns cfg; cardTemplate := cardTemplate cfg;
     autoRefresh := autoRefresh cfg; refreshInterval := refreshInterval cfg |}.

(** The messages [validateBoardConfig] pushes for typed columns, the first
    of which has the 0-based position [index]. *)
Fixpoint columnErrors (l : list ColumnConfig) (index : nat) : list string :=
  match l with
  | [] => []
  | cc :: rest =>
      ((if truthy (name cc) then []
        else ["Column " +:+ pretty (index + 1) +:+ " missing name"])
       ++ (if truthy (status cc) then []
           else ["Column " +:+ pretty (index + 1) +:+ " missing status value"]))
      ++ columnErrors rest (S index)
  end.

Definition configErrors (cfg : BoardConfig) : list string :=
  (if bool_decide (columns cfg = [])
   then ["Board must have at least one column"] else [])
  ++ columnErrors (columns cfg) 0.

(** What a raw column entry becomes, when reading its fields does not
    throw: an object, or any primitive other than [null] and [undefined]. *)
Definition columnOf (col : Val) : ColumnConfig :=
  {| name := or_else (opt_prop col "name") (Str "Unnamed");
     status := or_else (opt_prop col "status") (Str "");
     color := opt_prop col "color";
     limit := opt_prop col "limit";
     collapsed := coalesce (opt_prop col "collapsed") (Bool false) |}.

(** What the [map] callback returns for an element other than [null] and
    [undefined]; a result that is not truthy is then filtered out. *)
Definition itemPath (item : Val) : Val :=
  if isString item then item
  else if truthy (opt_prop (opt_prop item "file") "path")
       then opt_prop (opt_prop item "file") "path"
       else if truthy (opt_prop item "path") then opt_prop item "path"
            else Null.

(** The frontmatter the metadata cache reports for a file, if any:
    [getFileCache(file)?.frontmatter]. *)
Definition frontmatterOf (w : World) (f : TFile) : option Object :=
  match getFileCache w f with
  | Some cache => frontmatter cache
  | None => None
  end.

(** The card record built from a file and its frontmatter. *)
Definition cardOf `{TextOps} (f : TFile) (fm : Object) (text : string)
  : CardData :=
  {| file := {| cf_file := f; cf_path := path f; cf_name := basename f |};
     metadata := FrontmatterHelper.cardMetadata fm;
     title := default (basename f) (CardManager.extractTitle text);
     content := text |}.

(** What [loadCard] returns for a file, as a function of the world. *)
Definition loaded `{TextOps} (w : World) (f : TFile) : option CardData :=
  match vault w !! path f with
  | Some (Document _ text (Some fm)) => Some (cardOf f fm text)
  | _ => None
  end.

(** The metadata fields of the document at a path (none when the document
    is missing or has no frontmatter block). *)
Definition metadataAt (w : World) (p : string) : Object :=
  match vault w !! p with
  | Some (Document _ _ (Some fm)) => fm
  | _ => ∅
  end.

(** The world once a call to the engine is recorded. *)
Definition withQuery (w : World) (query sourcePath : string) : World :=
  mkWorld (vault w) (dataview w) (clock w) (console w)
    (queries w ++ [(query, sourcePath)]).

(** The world once a line is written to the console. *)
Definition withLog (w : World) (label : string) (detail : LogDetail) : World :=
  mkWorld (vault w) (dataview w) (clock w) (console w ++ [(label, detail)])
    (queries w).

(** The engine fails on a query, with a reason: it throws, the reason being
    the message of what it throws, or it returns a result object whose
    [successful] field is not truthy, the reason being its [error] field. *)
Inductive EngineFailure : EngineOutcome → Val → Prop :=
| engine_throws (e : Thrown) :
    EngineFailure (Throws e) (Str (errorMessage e))
| engine_reports (o : Object) :
    truthy (field o "successful") = false →
    EngineFailure (Returns (Obj o)) (field o "error").

(** One column per declared column, each without cards. *)
Definition emptyColumns (cfg : BoardConfig) : list KanbanColumn :=
  (λ cc, {| config := cc; cards := [] |}) <$> columns cfg.

(** The paths the board's query selects: the first half of
    [BoardView.loadCards] and [QueryExecutor.executeQuery], up to the
    normalized result of the engine. *)
Definition selectedPaths `{TextOps} (v : BoardView.View) : M (list Val) :=
  content ← vault_read (BoardView.boardFile v);
  result ← DataviewHelper.executeQuery
              (BoardView.boardQuery (BoardView.view_config v) content)
              (path (BoardView.boardFile v));
  if negb (truthy (successful result)) then mret []
  else lift (DataviewHelper.parsePageResults (value result)).

(** A card of the document at path [p] is a member of the column. *)
Definition holds (col : KanbanColumn) (p : string) : Prop :=
  ∃ card, card ∈ cards col ∧ cf_path (file card) = p.

(* ===================================================================== *)
(** ** Sample documents, used by the closed examples below *)
(* ===================================================================== *)

Module Sample.

Definition column (n s : string) : ColumnConfig :=
  {| name := Str n; status := Str s; color := Undefined;
     limit := Undefined; collapsed := Bool false |}.

Definition board (cols : list ColumnConfig) : BoardConfig :=
  {| boardId := Str "main"; columns := cols; cardTemplate := Undefined;
     autoRefresh := Bool true; refreshInterval := Num 30 |}.

(** The card [loadCard] builds for a document at [p] whose frontmatter
    is [status: s]. *)
Definition card (p s : string) : CardData :=
  {| file := {| cf_file := mkTFile p p; cf_path := p; cf_name := p |};
     metadata := FrontmatterHelper.cardMetadata {[ "status" := Str s ]};
     title := p;
     content := "" |}.

Definition threeColumns : BoardConfig :=
  board [column "To Do" "todo"; column "Doing" "doing"; column "Done" "done"].

Definition threeCards : list CardData :=
  [card "a.md" "todo"; card "b.md" "doing"; card "c.md" "done"].

Definition twoTodo : BoardConfig :=
  board [column "Backlog" "todo"; column "Next" "todo"].

(** A raw configuration object with one well-formed column and no
    [boardId] field. *)
Definition rawColumn : Val :=
  Obj {[ "name" := Str "To Do"; "status" := Str "todo" ]}.
Definition rawConfig : Object := {[ "columns" := Arr [rawColumn] ]}.

(** Text operations that find no heading, no query block and no positive
    numeral. *)
Definition plainText : TextOps :=
  {| headingMatch := λ _, None;
     dataviewjsMatch := λ _, None;
     trim := λ s, s;
     writeFrontmatter := λ _ text, text;
     numeralPositive := λ _, false |}.

End Sample.

Module SampleWorld.

(** A vault with a board document and three card documents.  The engine of
    [world] selects the three cards whatever the query is, that of
    [brokenQueryWorld] throws, that of [openWorld] selects the cards that are
    not done. *)
Definition files : gmap string Entry :=
  {[ "board.md" := Document "board" "" (Some {[ "type" := Str "kanban-board" ]});
     "a.md" := Document "a" ""
                 (Some {[ "status" := Str "todo"; "priority" := Str "high" ]});
     "b.md" := Document "b" "" (Some {[ "status" := Str "doing" ]});
     "c.md" := Document "c" "" (Some {[ "status" := Str "done" ]}) ]}.

Definition selectAll (v : gmap string Entry) (query sourcePath : string)
  : EngineOutcome :=
  Returns (Obj {[ "successful" := Bool true;
                  "value" := Arr [Str "a.md"; Str "b.md"; Str "c.md"] ]}).

Definition alwaysThrows (v : gmap string Entry) (query sourcePath : string)
  : EngineOutcome :=
  Throws (ErrorInstance "Unexpected token").

(** The documents a query for open cards selects: those whose status is
    set and is not "done". *)
Definition openCard (entry : string * Entry) : option Val :=
  match entry.2 with
  | Document _ _ (Some fm) =>
      if truthy (field fm "status")
         && negb (strict_eq (field fm "status") (Str "done"))
      then Some (Str entry.1) else None
  | _ => None
  end.

Definition selectOpen (v : gmap string Entry) (query sourcePath : string)
  : EngineOutcome :=
  Returns (Obj {[ "successful" := Bool true;
                  "value" := Arr (omap openCard (map_to_list v)) ]}).

Definition world : World :=
  {| vault := files; dataview := Some selectAll;
     clock := "2026-01-01T00:00:00.000Z"; console := []; queries := [] |}.

Definition brokenQueryWorld : World :=
  {| vault := files; dataview := Some alwaysThrows;
     clock := "2026-01-01T00:00:00.000Z"; console := []; queries := [] |}.

Definition openWorld : World :=
  {| vault := files; dataview := Some selectOpen;
     clock := "2026-01-01T00:00:00.000Z"; console := []; queries := [] |}.

Definition view (cfg : BoardConfig) : BoardView.View :=
  {| BoardView.boardFile := mkTFile "board.md" "board";
     BoardView.view_config := cfg;
     BoardView.view_cards := [];
     BoardView.view_columns := [];
     BoardView.container := BoardView.Blank |}.

End SampleWorld.

(* ===================================================================== *)
(** ** utils/frontmatter.ts, the other entry points *)
(* ===================================================================== *)

Module Frontmatter.

(** The mutation [updateCardMetadata] hands to [processFrontMatter]:
    [Object.assign(frontmatter, updates)], then the time stamp. *)
Definition assignUpdates (updates : Object) (now : string) (fm : Object)
  : Object :=
  <["last-updated" := Str now]> (updates ∪ fm).

Definition updateCardMetadata `{TextOps} (f : TFile) (updates : Object)
  : M unit :=
  w ← ask;
  processFrontMatter f (assignUpdates updates (clock w)).

(** [getBoardConfig]: [null], or the configuration object with its raw
    column list. *)
Definition getBoardConfig (cache : option CachedMetadata) : Val :=
  match cache with
  | Some c =>
      match frontmatter c with
      | Some fm =>
          if negb (strict_eq (field fm "type") (Str "kanban-board")) then Null
          else
            Obj (<["type" := Str "kanban-board"]>
                (<["boardId" := or_else (field fm "board-id") (Str "")]>
                (<["columns" := or_else (field fm "columns") (Arr [])]>
                (<["cardTemplate" := field fm "card-template"]>
                (<["autoRefresh" :=
                     coalesce (field fm "auto-refresh") (Bool true)]>
                (<["refreshInterval" :=
                     coalesce (field fm "refresh-interval") (Num 30)]> ∅))))))
      | None => Null
      end
  | None => Null
  end.

End Frontmatter.

(* ===================================================================== *)
(** ** commands/BoardCommands.ts and the folder helper of CardManager.ts *)
(* ===================================================================== *)

(** [app.vault.createFolder(path)]: the host adds a folder at a free path
    and rejects a path that is taken. *)
Definition createFolder (p : string) : M unit := λ w,
  match vault w !! p with
  | Some _ => (Throw (ErrorInstance "Folder already exists."), w)
  | None =>
      (Ok tt, mkWorld (<[p := Folder]> (vault w)) (dataview w) (clock w)
                (console w) (queries w))
  end.

Module BoardCommands.

Definition slash : Ascii.ascii := Ascii.ascii_of_nat 47.

(** [path.split("/")]: the pieces between slashes, at least one. *)
Fixpoint split (s : string) : list string :=
  match s with
  | EmptyString => [EmptyString]
  | String c rest =>
      if Ascii.eqb c slash then EmptyString :: split rest
      else match split rest with
           | piece :: pieces => String c piece :: pieces
           | [] => [String c EmptyString]
           end
  end.

(** [current += (current ? "/" : "") + folder] *)
Definition extend (current folder : string) : string :=
  current +:+ (if String.eqb current "" then "" else "/") +:+ folder.

(** The loop of [ensureFolder] over the remaining pieces. *)
Fixpoint ensureFolders (folders : list string) (current : string) : M unit :=
  match folders with
  | [] => mret tt
  | folder :: rest =>
      w ← ask;
      _ ← match getAbstractFileByPath w (extend current folder) with
          | Some _ => mret tt
          | None => createFolder (extend current folder)
          end;
      ensureFolders rest (extend current folder)
  end.

(** [ensureFolder], written twice in the sources with the same body: in
    [BoardCommands] and in [CardManager]. *)
Definition ensureFolder (path : string) : M unit :=
  ensureFolders (split path) "".

(** The character class of the file name sanitizer of [createCardFile]:
    backslash, slash, colon, star, question mark, double quote, angle
    brackets, bar. *)
Definition forbidden (c : Ascii.ascii) : bool :=
  existsb (Nat.eqb (Ascii.nat_of_ascii c)) [92; 47; 58; 42; 63; 34; 60; 62; 124].

(** [name.replace(/[...]/g, "-")] over that class *)
Fixpoint sanitize (name : string) : string :=
  match name with
  | EmptyString => EmptyString
  | String c rest =>
      String (if forbidden c then Ascii.ascii_of_nat 45 else c) (sanitize rest)
  end.

(** [v?.[0]] *)
Definition first (v : Val) : Val :=
  match v with
  | Arr items => default Undefined (head items)
  | Str (String c _) => Str (String c EmptyString)
  | Obj o => field o "0"
  | _ => Undefined
  end.

(** The guard of the command [createCard]:
    [!cache?.frontmatter || cache.frontmatter.type !== "kanban-board"] *)
Definition notABoard (cache : option CachedMetadata) : bool :=
  match cache with
  | Some c =>
      match frontmatter c with
      | Some fm => negb (strict_eq (field fm "type") (Str "kanban-board"))
      | None => true
      end
  | None => true
  end.

(** [cache.frontmatter.columns?.[0]?.status || "todo"] *)
Definition firstColumnStatus (fm : Object) : Val :=
  or_else (opt_prop (first (field fm "columns")) "status") (Str "todo").

End BoardCommands.

(* ===================================================================== *)
(** ** main.ts *)
(* ===================================================================== *)

Module Main.

(** [processKanbanBoard] for the document at [sourcePath], under the
    setting [requireDataview]; the result is the board view it built and
    rendered, if any. *)
Definition processKanbanBoard `{TextOps} (requireDataview : bool)
    (sourcePath : string) : M (option BoardView.View) :=
  w ← ask;
  if requireDataview && negb (DataviewHelper.isAvailable w) then mret None
  else
    match getAbstractFileByPath w sourcePath with
    | Some (AFile f) =>
        if negb (BoardParser.isBoardFile (getFileCache w f)) then mret None
        else
          match getFileCache w f with
          | Some cache =>
              parsed ← lift (BoardParser.parseBoardConfig cache);
              match parsed with
              | Some cfg =>
                  v ← BoardView.render
                        {| BoardView.boardFile := f;
                           BoardView.view_config := cfg;
                           BoardView.view_cards := [];
                           BoardView.view_columns := [];
                           BoardView.container := BoardView.Blank |};
                  mret (Some v)
              | None => mret None
              end
          | None => mret None
          end
    | _ => mret None
    end.

End Main.

(* ===================================================================== *)
(** ** Vocabulary of the further properties *)
(* ===================================================================== *)

(** Nesting depth of a value. *)
Fixpoint depth (v : Val) : nat :=
  match v with
  | Arr items => S (foldr (λ x acc, max (depth x) acc) 0 items)
  | Obj o => S (map_fold (λ _ x acc, max (depth x) acc) 0 o)
  | _ => 0
  end.

(** The second world has the documents, engine and clock of the first; its
    console and its record of engine calls extend those of the first. *)
Definition sameDocuments (w w' : World) : Prop :=
  vault w' = vault w ∧ dataview w' = dataview w ∧ clock w' = clock w
  ∧ console w `prefix_of` console w' ∧ queries w `prefix_of` queries w'.

(** A computation that never changes a document. *)
Definition readOnly {A} (m : M A) : Prop := ∀ w, sameDocuments w (m w).2.

(** The card of the document at a path, if it is a document with
    frontmatter. *)
Definition cardAt `{TextOps} (w : World) (p : string) : option CardData :=
  match vault w !! p with
  | Some (Document base text (Some fm)) => Some (cardOf (mkTFile p base) fm text)
  | _ => None
  end.

(** The fields the literal of [getCardMetadata] names, with the value each
    has when the frontmatter lacks it. *)
Definition namedDefault (k : string) : option Val :=
  if bool_decide (k ∈ ["status"; "priority"; "due"; "assignee"; "board"])
  then Some Undefined
  else if bool_decide (k = "tags") then Some (Arr []) else None.

(** The successive values of [current] in [ensureFolder]. *)
Fixpoint currents (folders : list string) (current : string) : list string :=
  match folders with
  | [] => []
  | folder :: rest =>
      BoardCommands.extend current folder
      :: currents rest (BoardCommands.extend current folder)
  end.

(** An assignee that [renderAssignee] is not called on or can show: none,
    a string, or an object whose [path] is a string. *)
Definition drawableAssignee (assignee : Val) : bool :=
  negb (truthy assignee) || isString assignee
  || match assignee with
     | Obj o => isString (field o "path")
     | _ => false
     end.

(** Tags that [renderTags] is not called on or can show: a list whose first
    three entries are strings, the empty string, an object whose [length] is
    not above zero, or a value without a length. *)
Definition drawableTags `{TextOps} (tags : Val) : bool :=
  match tags with
  | Arr items => forallb isString (take 3 items)
  | Str s => String.eqb s ""
  | Obj o => negb (positive (field o "length"))
  | _ => true
  end.

(** The characters of a string. *)
Fixpoint chars (s : string) : list Ascii.ascii :=
  match s with
  | EmptyString => []
  | String c rest => c :: chars rest
  end.

Module Fixture.

(** A vault with a folder, a board without columns and a plain note. *)
Definition files : gmap string Entry :=
  {[ "Cards" := Folder;
     "empty.md" := Document "empty" "" (Some {[ "type" := Str "kanban-board" ]});
     "note.md" := Document "note" "" (Some {[ "title" := Str "hello" ]});
     "a.md" := Document "a" ""
                 (Some {[ "status" := Str "todo"; "priority" := Str "high" ]}) ]}.

Definition world : World :=
  {| vault := files; dataview := None;
     clock := "2026-01-01T00:00:00.000Z"; console := []; queries := [] |}.

(** An engine whose result holds an empty element. *)
Definition nullElement (v : gmap string Entry) (query sourcePath : string)
  : EngineOutcome :=
  Returns (Obj {[ "successful" := Bool true;
                  "value" := Arr [Str "a.md"; Null] ]}).

Definition nullElementWorld : World :=
  {| vault := SampleWorld.files; dataview := Some nullElement;
     clock := "2026-01-01T00:00:00.000Z"; console := []; queries := [] |}.

(** The sample vault with a.md tagged by one word in place of a list. *)
Definition taggedWorld : World :=
  {| vault := <["a.md" := Document "a" ""
                            (Some {[ "status" := Str "todo";
                                     "tags" := Str "work" ]})]>
                SampleWorld.files;
     dataview := Some SampleWorld.selectAll;
     clock := "2026-01-01T00:00:00.000Z"; console := []; queries := [] |}.

End Fixture.

(* ===================================================================== *)
(** ** Facts about the JavaScript fragment *)
(* ===================================================================== *)

Section js_facts.

Lemma truthy_Str s : truthy (Str s) = true ↔ s ≠ "".
Proof.
  simpl. destruct (String.eqb_spec s ""); simpl; split; congruence.
Qed.

Lemma strict_eq_Str_r v s : strict_eq v (Str s) = true ↔ v = Str s.
Proof.
  destruct v; simpl; split; try congruence.
  - intros H%String.eqb_eq. congruence.
  - intros [= ->]. apply String.eqb_refl.
Qed.

Lemma strict_eq_Str_l s v : strict_eq (Str s) v = true ↔ v = Str s.
Proof.
  destruct v; simpl; split; try congruence.
  - intros Heq%String.eqb_eq. congruence.
  - intros [= ->]. apply String.eqb_refl.
Qed.

Lemma strict_eq_Str s t : strict_eq (Str s) (Str t) = true ↔ s = t.
Proof. rewrite strict_eq_Str_r. split; congruence. Qed.

Lemma prop_Obj o k : prop (Obj o) k = Ok (field o k).
Proof. reflexivity. Qed.

Lemma field_Some (o : Object) k v : o !! k = Some v → field o k = v.
Proof. intros H. unfold field. by rewrite H. Qed.

Lemma field_None (o : Object) k : o !! k = None → field o k = Undefined.
Proof. intros H. unfold field. by rewrite H. Qed.

Lemma field_insert_eq (o : Object) k v : field (<[k := v]> o) k = v.
Proof. unfold field. by rewrite lookup_insert_eq. Qed.

Lemma field_insert_ne (o : Object) j k v :
  j ≠ k → field (<[j := v]> o) k = field o k.
Proof. intros. unfold field. by rewrite lookup_insert_ne. Qed.

Lemma bind_Ok {A B} (a : A) (f : A → Res B) : (Ok a ≫= f) = f a.
Proof. reflexivity. Qed.

End js_facts.

(* ===================================================================== *)
(** ** Grouping cards into columns *)
(* ===================================================================== *)

Section grouping.

Implicit Types (cfg : BoardConfig) (cs : list CardData)
  (col : KanbanColumn) (cc : ColumnConfig) (card : CardData).

Lemma group_lookup cfg cs i col :
  BoardView.group cfg cs !! i = Some col ↔
  ∃ cc, columns cfg !! i = Some cc ∧
        col = {| config := cc;
                 cards := List.filter (BoardView.inColumn cc) cs |}.
Proof.
  unfold BoardView.group. rewrite list_lookup_fmap.
  destruct (columns cfg !! i) as [cc|]; simpl; split.
  - intros [= <-]. eauto.
  - intros (? & [= <-] & ->). done.
  - done.
  - intros (? & ? & _). done.
Qed.

Lemma group_length cfg cs :
  length (BoardView.group cfg cs) = length (columns cfg).
Proof. unfold BoardView.group. apply length_fmap. Qed.

Lemma group_configs cfg cs : config <$> BoardView.group cfg cs = columns cfg.
Proof.
  unfold BoardView.group.
  induction (columns cfg) as [|cc l IH]; [done | by rewrite !fmap_cons, IH].
Qed.

Lemma elem_of_filter_bool {A} (p : A → bool) (l : list A) x :
  x ∈ List.filter p l ↔ x ∈ l ∧ p x = true.
Proof. rewrite !list_elem_of_In. apply filter_In. Qed.

Lemma group_member cfg cs i col card :
  BoardView.group cfg cs !! i = Some col →
  card ∈ cards col ↔ card ∈ cs ∧ BoardView.inColumn (config col) card = true.
Proof.
  intros (cc & _ & ->)%group_lookup. simpl. apply elem_of_filter_bool.
Qed.

(** Counting the pairs (column, card) that match, by columns or by cards. *)
Lemma count_by_columns_or_cards (l : list ColumnConfig) cs :
  sum_list_with (λ cc, length (List.filter (BoardView.inColumn cc) cs)) l
  = sum_list_with
      (λ card, length (List.filter (λ cc, BoardView.inColumn cc card) l)) cs.
Proof.
  induction cs as [|card cs IH]; simpl.
  - induction l as [|cc l IHl]; simpl; [done | by rewrite IHl].
  - rewrite <- IH. clear IH.
    induction l as [|cc l IHl]; simpl; [done|].
    destruct (BoardView.inColumn cc card); simpl; rewrite IHl; lia.
Qed.

Lemma group_counts cfg cs :
  sum_list_with (λ col, length (cards col)) (BoardView.group cfg cs)
  = sum_list_with
      (λ cc, length (List.filter (BoardView.inColumn cc) cs)) (columns cfg).
Proof.
  unfold BoardView.group.
  induction (columns cfg) as [|cc l IH]; [done|].
  rewrite fmap_cons. simpl. f_equal. exact IH.
Qed.

(** A list with exactly one element satisfying [p] has it at exactly one
    position. *)
Lemma filter_one_position {A} (p : A → bool) (l : list A) :
  length (List.filter p l) = 1 →
  ∃ i, (∃ x, l !! i = Some x ∧ p x = true) ∧
       ∀ j y, l !! j = Some y → p y = true → j = i.
Proof.
  induction l as [|a l IH]; simpl; [lia|].
  destruct (p a) eqn:Ha; simpl.
  - intros Hlen. exists 0. split; [by exists a|].
    intros [|j] y Hj Hy; [done|]. simpl in Hj.
    assert (y ∈ List.filter p l) as Hin.
    { apply elem_of_filter_bool. split; [|done].
      by eapply list_elem_of_lookup_2. }
    destruct (List.filter p l); [by apply elem_of_nil in Hin | simpl in *; lia].
  - intros (i & (x & Hx & Hpx) & Huniq)%IH. exists (S i). split; [by exists x|].
    intros [|j] y Hj Hy; simpl in Hj.
    + congruence.
    + f_equal. by eapply Huniq.
Qed.

Lemma filter_all_length {A} (p : A → bool) (l : list A) :
  (∀ x, x ∈ l → p x = true) → List.filter p l = l.
Proof.
  induction l as [|a l IH]; simpl; [done|]. intros Hall.
  rewrite (Hall a) by apply list_elem_of_here.
  f_equal. apply IH. intros x Hx. apply Hall. by apply list_elem_of_further.
Qed.

End grouping.

(* ===================================================================== *)
(** ** Properties of the materialized columns *)
(* ===================================================================== *)

Section materialized_columns.

Implicit Types (cfg : BoardConfig) (cs : list CardData)
  (col : KanbanColumn) (card : CardData).

(** C1, as the code has it: the i-th materialized column is the i-th
    declared column, and a loaded card is a member of it exactly when its
    status is strictly equal to the status of that column.  A card is thus
    placed in every column that declares its status; it appears in one
    column only when one declared column only has its status. *)
Theorem C1_card_in_each_matching_column cfg cs i col card :
  BoardView.group cfg cs !! i = Some col →
  columns cfg !! i = Some (config col)
  ∧ (card ∈ cards col ↔
     card ∈ cs ∧
     strict_eq (field (metadata card) "status") (status (config col)) = true)
  ∧ ((∀ j cj, columns cfg !! j = Some cj →
              BoardView.inColumn cj card = true → j = i) →
     ∀ j other, BoardView.group cfg cs !! j = Some other →
                card ∈ cards other → j = i).
Proof.
  intros Hcol. split; [|split].
  - apply group_lookup in Hcol as (cc & Hcc & ->). exact Hcc.
  - exact (group_member cfg cs i col card Hcol).
  - intros Honly j other Hother Hin.
    destruct (proj1 (group_member cfg cs j other card Hother) Hin) as [_ Hm].
    apply group_lookup in Hother as (cj & Hcj & ->).
    exact (Honly j cj Hcj Hm).
Qed.

Lemma C1_card_in_each_matching_column_witness :
  BoardView.group Sample.threeColumns [Sample.card "a.md" "todo"] !! 0
  = Some {| config := Sample.column "To Do" "todo";
            cards := [Sample.card "a.md" "todo"] |}
  ∧ (Sample.card "a.md" "todo" ∈ [Sample.card "a.md" "todo"] ↔
     Sample.card "a.md" "todo" ∈ [Sample.card "a.md" "todo"] ∧
     strict_eq (field (metadata (Sample.card "a.md" "todo")) "status")
       (Str "todo") = true).
Proof.
  assert (BoardView.group Sample.threeColumns [Sample.card "a.md" "todo"] !! 0
          = Some {| config := Sample.column "To Do" "todo";
                    cards := [Sample.card "a.md" "todo"] |}) as H
    by (vm_compute; reflexivity).
  split; [exact H|].
  exact (proj1 (proj2 (C1_card_in_each_matching_column
                         _ _ _ _ (Sample.card "a.md" "todo") H))).
Defined.

(** C1, as the claim has it, fails: of two columns that both declare the
    status "todo", both receive a card whose status is "todo". *)
Lemma C1_duplicate_status_counterexample :
  ¬ atMostOneColumn
      (BoardView.group Sample.twoTodo [Sample.card "a.md" "todo"]).
Proof.
  intros H.
  specialize (H (Sample.card "a.md" "todo") 0 1
                {| config := Sample.column "Backlog" "todo";
                   cards := [Sample.card "a.md" "todo"] |}
                {| config := Sample.column "Next" "todo";
                   cards := [Sample.card "a.md" "todo"] |}).
  assert (0 = 1) as Hne; [|discriminate Hne].
  apply H; try (vm_compute; reflexivity); apply list_elem_of_here.
Qed.

(** C2: on a valid configuration with N columns, when the status of every
    loaded card is the status of exactly one declared column, grouping
    yields N columns, their configurations are the declared ones in
    order, the column sizes add up to the number of cards that have a
    matching status (here all of them), and every card is a member of
    exactly one column. *)
Theorem C2_one_column_per_card cfg cs :
  isValid cfg = true →
  (∀ card, card ∈ cs → length (matchingColumns cfg card) = 1) →
  length (BoardView.group cfg cs) = length (columns cfg)
  ∧ config <$> BoardView.group cfg cs = columns cfg
  ∧ sum_list_with (λ col, length (cards col)) (BoardView.group cfg cs)
    = length (List.filter (hasColumn cfg) cs)
  ∧ length (List.filter (hasColumn cfg) cs) = length cs
  ∧ ∀ card, card ∈ cs →
      ∃ i, (∃ col, BoardView.group cfg cs !! i = Some col ∧ card ∈ cards col)
           ∧ ∀ j col, BoardView.group cfg cs !! j = Some col →
                      card ∈ cards col → j = i.
Proof.
  intros _ Hone.
  assert (List.filter (hasColumn cfg) cs = cs) as Hall.
  { apply filter_all_length. intros card Hin. specialize (Hone card Hin).
    unfold hasColumn, matchingColumns in *. apply existsb_exists.
    destruct (List.filter _ (columns cfg)) as [|cc l] eqn:Hf; [done|].
    exists cc. apply (filter_In (λ cc, BoardView.inColumn cc card)).
    rewrite Hf. by left. }
  split; [apply group_length|]. split; [apply group_configs|].
  rewrite Hall. split; [|split; [done|]].
  - rewrite group_counts, count_by_columns_or_cards.
    clear Hall. induction cs as [|card cs IH]; simpl; [done|].
    rewrite IH.
    + specialize (Hone card (list_elem_of_here _ _)).
      unfold matchingColumns in Hone. by rewrite Hone.
    + intros c Hc. apply Hone. by apply list_elem_of_further.
  - intros card Hin.
    destruct (filter_one_position _ _ (Hone card Hin))
      as (i & (cc & Hcc & Hm) & Huniq).
    exists i. split.
    + eexists. split; [apply group_lookup; eauto|].
      simpl. by apply elem_of_filter_bool.
    + intros j col Hcol Hc.
      destruct (proj1 (group_member cfg cs j col card Hcol) Hc) as [_ Hm'].
      apply group_lookup in Hcol as (cj & Hcj & ->).
      exact (Huniq j cj Hcj Hm').
Qed.

Lemma C2_one_column_per_card_witness :
  isValid Sample.threeColumns = true
  ∧ (∀ card, card ∈ Sample.threeCards →
             length (matchingColumns Sample.threeColumns card) = 1)
  ∧ length (BoardView.group Sample.threeColumns Sample.threeCards) = 3
  ∧ sum_list_with (λ col, length (cards col))
      (BoardView.group Sample.threeColumns Sample.threeCards) = 3.
Proof.
  assert (isValid Sample.threeColumns = true) as Hvalid
    by (vm_compute; reflexivity).
  assert (∀ card, card ∈ Sample.threeCards →
                  length (matchingColumns Sample.threeColumns card) = 1)
    as Hone.
  { intros card Hin. unfold Sample.threeCards in Hin.
    repeat (apply elem_of_cons in Hin as [->|Hin];
            [vm_compute; reflexivity|]).
    by apply elem_of_nil in Hin. }
  destruct (C2_one_column_per_card _ _ Hvalid Hone)
    as (Hlen & _ & Hsum & Hcount & _).
  split; [exact Hvalid|]. split; [exact Hone|]. split; [exact Hlen|].
  rewrite Hsum. exact Hcount.
Defined.

(** The board of three columns "todo", "doing", "done" with one card of
    each status: three columns of one card each, in declared order. *)
Example three_columns_three_cards :
  BoardView.group Sample.threeColumns Sample.threeCards
  = [ {| config := Sample.column "To Do" "todo";
         cards := [Sample.card "a.md" "todo"] |};
      {| config := Sample.column "Doing" "doing";
         cards := [Sample.card "b.md" "doing"] |};
      {| config := Sample.column "Done" "done";
         cards := [Sample.card "c.md" "done"] |} ].
Proof. vm_compute. reflexivity. Qed.

End materialized_columns.

(* ===================================================================== *)
(** ** Validation *)
(* ===================================================================== *)

Section validation.

Implicit Types (cfg : BoardConfig) (o : Object).

Lemma validate_only_columns o o' :
  o' !! "columns" = o !! "columns" →
  Validator.validateBoardConfig (Obj o')
  = Validator.validateBoardConfig (Obj o).
Proof.
  intros Heq. unfold Validator.validateBoardConfig.
  rewrite !prop_Obj. unfold field. by rewrite Heq.
Qed.

Lemma checkColumns_named cols index :
  (∀ col, col ∈ cols → hasNameAndStatus col) →
  Validator.checkColumns cols index = Ok [].
Proof.
  revert index. induction cols as [|col cols IH]; intros index Hall; [done|].
  destruct (Hall col (list_elem_of_here _ _)) as (n & s & Hn & Htn & Hs & Hts).
  simpl. unfold Validator.checkColumn. rewrite Hn, Hs. simpl.
  rewrite Htn, Hts. simpl. rewrite IH; [done|].
  intros c Hc. apply Hall. by apply list_elem_of_further.
Qed.

(** A raw column object whose name and status are non-empty strings. *)
Lemma named_column o n s :
  o !! "name" = Some (Str n) → n ≠ "" →
  o !! "status" = Some (Str s) → s ≠ "" →
  hasNameAndStatus (Obj o).
Proof.
  intros Hn Hne Hs Hse. exists (Str n), (Str s).
  rewrite !prop_Obj, (field_Some _ _ _ Hn), (field_Some _ _ _ Hs).
  repeat split; by apply truthy_Str.
Qed.

Lemma ColumnConfig_js_name cc : prop (ColumnConfig_js cc) "name" = Ok (name cc).
Proof. reflexivity. Qed.

Lemma ColumnConfig_js_status cc :
  prop (ColumnConfig_js cc) "status" = Ok (status cc).
Proof. reflexivity. Qed.

Lemma BoardConfig_js_columns cfg :
  prop (BoardConfig_js cfg) "columns"
  = Ok (Arr (ColumnConfig_js <$> columns cfg)).
Proof. reflexivity. Qed.

Lemma checkColumns_cons col rest index :
  Validator.checkColumns (col :: rest) index
  = (here ← Validator.checkColumn col index;
     more ← Validator.checkColumns rest (S index);
     mret (here ++ more)).
Proof. reflexivity. Qed.

Lemma checkColumn_typed cc index :
  Validator.checkColumn (ColumnConfig_js cc) index
  = Ok ((if truthy (name cc) then []
         else ["Column " +:+ pretty (index + 1) +:+ " missing name"])
        ++ (if truthy (status cc) then []
            else ["Column " +:+ pretty (index + 1)
                  +:+ " missing status value"])).
Proof. reflexivity. Qed.

Lemma checkColumns_typed (l : list ColumnConfig) index :
  Validator.checkColumns (ColumnConfig_js <$> l) index
  = Ok (columnErrors l index).
Proof.
  revert index. induction l as [|cc l IH]; intros index; [done|].
  rewrite fmap_cons, checkColumns_cons, checkColumn_typed, IH.
  reflexivity.
Qed.

(** On a typed configuration validation never throws, and its messages are
    those of [configErrors]. *)
Lemma validate_typed cfg :
  Validator.validateBoardConfig (BoardConfig_js cfg)
  = Ok {| Validator.valid := bool_decide (configErrors cfg = []);
          Validator.errors := configErrors cfg |}.
Proof.
  unfold Validator.validateBoardConfig.
  rewrite BoardConfig_js_columns, bind_Ok.
  cbn [truthy isArray negb orb andb Validator.forEachColumn prop
       String.eqb Ascii.eqb Bool.eqb].
  rewrite bind_Ok, checkColumns_typed, bind_Ok. unfold configErrors.
  destruct (columns cfg) as [|cc l]; [reflexivity|].
  rewrite (bool_decide_false (cc :: l = [])) by done. reflexivity.
Qed.

Lemma isValid_spec cfg : isValid cfg = bool_decide (configErrors cfg = []).
Proof. unfold isValid. by rewrite validate_typed. Qed.

Lemma isValid_columns cfg : isValid cfg = true → columns cfg ≠ [].
Proof.
  rewrite isValid_spec. intros H%bool_decide_eq_true Hnil.
  unfold configErrors in H. rewrite Hnil in H. simpl in H. done.
Qed.

End validation.

Section validation_claims.

Implicit Types (cfg : BoardConfig) (o : Object).

(** C10: validation reads the [columns] field and nothing else.  When that
    field is a non-empty array whose entries all have a non-empty name and a
    non-empty status, every configuration object with that [columns] field
    is valid with no error, whatever its [boardId] is and whether or not it
    has one; likewise neither the validity of a typed configuration nor the
    grouping of cards into columns depends on [boardId]. *)
Theorem C10_validation_examines_only_columns o cols :
  o !! "columns" = Some (Arr cols) →
  cols ≠ [] →
  (∀ col, col ∈ cols → hasNameAndStatus col) →
  (∀ o', o' !! "columns" = o !! "columns" →
         Validator.validateBoardConfig (Obj o')
         = Ok {| Validator.valid := true; Validator.errors := [] |})
  ∧ (∀ cfg b cs,
       isValid (withBoardId cfg b) = isValid cfg
       ∧ BoardView.group (withBoardId cfg b) cs = BoardView.group cfg cs).
Proof.
  intros Hcols Hne Hall. split.
  - intros o' Ho'. rewrite (validate_only_columns o o' Ho').
    unfold Validator.validateBoardConfig.
    rewrite prop_Obj, bind_Ok, (field_Some _ _ _ Hcols).
    cbn [truthy isArray negb orb andb Validator.forEachColumn prop
         String.eqb Ascii.eqb Bool.eqb].
    rewrite bind_Ok, (checkColumns_named cols 0 Hall), bind_Ok.
    destruct cols as [|col cols']; [done|]. reflexivity.
  - intros cfg b cs. split; [|reflexivity].
    rewrite !isValid_spec. reflexivity.
Qed.

Lemma C10_validation_examines_only_columns_witness :
  Sample.rawConfig !! "columns" = Some (Arr [Sample.rawColumn])
  ∧ [Sample.rawColumn] ≠ []
  ∧ (∀ col, col ∈ [Sample.rawColumn] → hasNameAndStatus col)
  ∧ Validator.validateBoardConfig (Obj Sample.rawConfig)
    = Ok {| Validator.valid := true; Validator.errors := [] |}
  ∧ Validator.validateBoardConfig
      (Obj (<["boardId" := Str ""]> Sample.rawConfig))
    = Ok {| Validator.valid := true; Validator.errors := [] |}.
Proof.
  assert (Sample.rawConfig !! "columns" = Some (Arr [Sample.rawColumn]))
    as H1 by reflexivity.
  assert ([Sample.rawColumn] ≠ []) as H2 by discriminate.
  assert (∀ col, col ∈ [Sample.rawColumn] → hasNameAndStatus col) as H3.
  { intros col Hin. apply elem_of_cons in Hin as [->|Hin].
    - exists (Str "To Do"), (Str "todo"). repeat split; reflexivity.
    - by apply elem_of_nil in Hin. }
  destruct (C10_validation_examines_only_columns _ _ H1 H2 H3) as [Hvalid _].
  split; [exact H1|]. split; [exact H2|]. split; [exact H3|].
  split; apply Hvalid; reflexivity.
Defined.

End validation_claims.

(* ===================================================================== *)
(** ** Parsing the board configuration *)
(* ===================================================================== *)

Section parsing.

Implicit Types (cache : CachedMetadata) (fm o : Object).

Lemma mapM_Ok_fmap {A B} (f : A → Res B) (g : A → B) (l : list A) :
  (∀ x, x ∈ l → f x = Ok (g x)) → mapM f l = Ok (g <$> l).
Proof.
  induction l as [|x l IH]; intros Hall; [done|].
  cbn [mapM]. rewrite (Hall x) by apply list_elem_of_here. rewrite bind_Ok.
  rewrite IH; [done|]. intros y Hy. apply Hall. by apply list_elem_of_further.
Qed.

Lemma prop_opt_prop v k : nullish v = false → prop v k = Ok (opt_prop v k).
Proof. unfold opt_prop. by destruct v. Qed.

Lemma parseColumn_columnOf col :
  nullish col = false → BoardParser.parseColumn col = Ok (columnOf col).
Proof.
  intros Hn. unfold BoardParser.parseColumn.
  rewrite !(prop_opt_prop col) by done. reflexivity.
Qed.

Lemma parseColumn_nullish col :
  nullish col = true →
  BoardParser.parseColumn col
  = Throw (TypeError ("Cannot read properties of " +:+ typeName col
                      +:+ " (reading 'name')")).
Proof. by destruct col. Qed.

(** Defaults of one raw column entry. *)
Lemma parseColumn_defaults o :
  ∃ cc, BoardParser.parseColumn (Obj o) = Ok cc
        ∧ (o !! "name" = None → name cc = Str "Unnamed")
        ∧ (o !! "status" = None → status cc = Str "")
        ∧ (o !! "collapsed" = None → collapsed cc = Bool false).
Proof.
  exists (columnOf (Obj o)). split; [by apply parseColumn_columnOf|].
  unfold columnOf, opt_prop. rewrite !prop_Obj. cbn [name status collapsed].
  repeat split; intros H; by rewrite (field_None _ _ H).
Qed.

Lemma parseBoardConfig_null_iff cache :
  BoardParser.parseBoardConfig cache = Ok None
  ↔ BoardParser.isBoardFile (Some cache) = false.
Proof.
  unfold BoardParser.parseBoardConfig.
  destruct (BoardParser.isBoardFile (Some cache)) eqn:Hb; cbn [negb].
  - split; [|done]. unfold BoardParser.isBoardFile in Hb.
    destruct (frontmatter cache) as [fm|]; [|done].
    destruct (array_map _ _ _); done.
  - done.
Qed.

(** A board document with no [columns] field (or a falsy one) parses, with
    the empty column list. *)
Lemma parseBoardConfig_missing_columns cache fm :
  frontmatter cache = Some fm →
  BoardParser.isBoardFile (Some cache) = true →
  truthy (field fm "columns") = false →
  ∃ cfg, BoardParser.parseBoardConfig cache = Ok (Some cfg)
         ∧ columns cfg = [].
Proof.
  intros Hfm Hb Hc. unfold BoardParser.parseBoardConfig.
  rewrite Hb, Hfm. cbn [negb]. unfold or_else. rewrite Hc.
  eexists. split; reflexivity.
Qed.

(** A board document whose [columns] field is an array without [null] or
    [undefined] entries parses, entry by entry. *)
Lemma parseBoardConfig_columns cache fm cols :
  frontmatter cache = Some fm →
  BoardParser.isBoardFile (Some cache) = true →
  field fm "columns" = Arr cols →
  (∀ col, col ∈ cols → nullish col = false) →
  ∃ cfg, BoardParser.parseBoardConfig cache = Ok (Some cfg)
         ∧ columns cfg = columnOf <$> cols.
Proof.
  intros Hfm Hb Hc Hall. unfold BoardParser.parseBoardConfig.
  rewrite Hb, Hfm. cbn [negb]. unfold or_else. rewrite Hc.
  cbn [truthy array_map].
  rewrite (mapM_Ok_fmap _ columnOf).
  - eexists. split; reflexivity.
  - intros col Hcol. apply parseColumn_columnOf. by apply Hall.
Qed.

(** C9, where the code departs from it: a board document whose [columns]
    field is a scalar is not parsed into a configuration; [parseBoardConfig]
    throws a TypeError, since [.map] is called on a value that is not an
    array. *)
Theorem C9_scalar_columns_throw :
  BoardParser.isBoardFile
    (Some (mkCache (Some {[ "type" := Str "kanban-board";
                            "columns" := Str "todo" ]}))) = true
  ∧ BoardParser.parseBoardConfig
      (mkCache (Some {[ "type" := Str "kanban-board";
                        "columns" := Str "todo" ]}))
    = Throw (TypeError "(fm.columns || []).map is not a function").
Proof. split; vm_compute; reflexivity. Qed.

(** The same fault on a column list with an empty ([null]) entry. *)
Example parseBoardConfig_null_entry_throws :
  BoardParser.parseBoardConfig
    (mkCache (Some {[ "type" := Str "kanban-board";
                      "columns" := Arr [Null] ]}))
  = Throw (TypeError "Cannot read properties of null (reading 'name')").
Proof. vm_compute. reflexivity. Qed.

End parsing.

(* ===================================================================== *)
(** ** Normalizing query results *)
(* ===================================================================== *)

Section page_results.

Implicit Types (result item : Val) (o : Object).

Lemma parsePageResults_falsy result :
  truthy result = false → DataviewHelper.parsePageResults result = Ok [].
Proof. intros H. destruct result; simpl in *; try done; by rewrite H. Qed.

Lemma parsePageResults_Arr items :
  DataviewHelper.parsePageResults (Arr items)
  = List.filter truthy <$> mapM DataviewHelper.pageItem items.
Proof. reflexivity. Qed.

(** The wrapper case, as the source writes it: recurse on [result.values]. *)
Lemma parsePageResults_Obj o :
  DataviewHelper.parsePageResults (Obj o)
  = if truthy (field o "values")
    then DataviewHelper.parsePageResults (field o "values")
    else Ok [].
Proof.
  cbn [DataviewHelper.parsePageResults truthy negb].
  destruct (truthy (field o "values")) eqn:Hv; [|done].
  rewrite lookup_fmap. unfold field in *.
  destruct (o !! "values") as [v|]; [done | discriminate Hv].
Qed.

(** Anything that is neither an array nor an object with a truthy
    [values] field yields the empty list. *)
Lemma parsePageResults_unrecognized result :
  isArray result = false →
  truthy (opt_prop result "values") = false →
  DataviewHelper.parsePageResults result = Ok [].
Proof.
  intros Ha Hv. destruct result as [| |b|n| |s|items|o]; try done.
  - by destruct b.
  - simpl. by destruct (negb (n =? 0)%Z).
  - simpl. by destruct (negb (String.eqb s "")).
  - rewrite parsePageResults_Obj. unfold opt_prop in Hv.
    rewrite prop_Obj in Hv. by rewrite Hv.
Qed.

Lemma pageItem_itemPath item :
  nullish item = false → DataviewHelper.pageItem item = Ok (itemPath item).
Proof.
  intros Hn. unfold DataviewHelper.pageItem, itemPath.
  destruct (isString item); [done|].
  rewrite !(prop_opt_prop item) by done. rewrite bind_Ok.
  destruct (truthy (opt_prop (opt_prop item "file") "path")); [done|].
  rewrite bind_Ok. by destruct (truthy (opt_prop item "path")).
Qed.

(** On an array without [null] or [undefined] elements: the identifiers
    that resolve, in order; the other elements are dropped. *)
Lemma parsePageResults_elements items :
  (∀ item, item ∈ items → nullish item = false) →
  DataviewHelper.parsePageResults (Arr items)
  = Ok (List.filter truthy (itemPath <$> items)).
Proof.
  intros Hall. rewrite parsePageResults_Arr.
  rewrite (mapM_Ok_fmap _ itemPath); [done|].
  intros item Hin. apply pageItem_itemPath. by apply Hall.
Qed.

(** A flat list of non-empty strings is returned as it is. *)
Lemma parsePageResults_strings (ids : list string) :
  (∀ s, s ∈ ids → s ≠ "") →
  DataviewHelper.parsePageResults (Arr (Str <$> ids)) = Ok (Str <$> ids).
Proof.
  intros Hne. rewrite parsePageResults_elements.
  - f_equal. induction ids as [|s ids IH]; [done|].
    rewrite !fmap_cons. cbn [List.filter itemPath isString].
    rewrite (proj2 (truthy_Str s)) by (apply Hne, list_elem_of_here).
    f_equal. apply IH. intros t Ht. apply Hne. by apply list_elem_of_further.
  - intros item (s & -> & _)%list_elem_of_fmap. done.
Qed.

(** A list of page objects with a nested [file.path], or with a [path], is
    turned into the list of those paths. *)
Lemma parsePageResults_pages (ids : list string) :
  (∀ s, s ∈ ids → s ≠ "") →
  DataviewHelper.parsePageResults
    (Arr ((λ s, Obj {[ "file" := Obj {[ "path" := Str s ]} ]}) <$> ids))
  = Ok (Str <$> ids)
  ∧ DataviewHelper.parsePageResults
      (Arr ((λ s, Obj {[ "path" := Str s ]}) <$> ids))
    = Ok (Str <$> ids).
Proof.
  intros Hne. split.
  - rewrite parsePageResults_elements.
    + f_equal. induction ids as [|s ids IH]; [done|].
      rewrite !fmap_cons. cbn [List.filter].
      change (itemPath (Obj {[ "file" := Obj {[ "path" := Str s ]} ]}))
        with (if truthy (Str s) then Str s else Null).
      rewrite (proj2 (truthy_Str s)) by (apply Hne, list_elem_of_here).
      rewrite (proj2 (truthy_Str s)) by (apply Hne, list_elem_of_here).
      f_equal. apply IH. intros t Ht. apply Hne. by apply list_elem_of_further.
    + intros item (s & -> & _)%list_elem_of_fmap. done.
  - rewrite parsePageResults_elements.
    + f_equal. induction ids as [|s ids IH]; [done|].
      rewrite !fmap_cons. cbn [List.filter].
      change (itemPath (Obj {[ "path" := Str s ]}))
        with (if truthy (Str s) then Str s else Null).
      rewrite (proj2 (truthy_Str s)) by (apply Hne, list_elem_of_here).
      rewrite (proj2 (truthy_Str s)) by (apply Hne, list_elem_of_here).
      f_equal. apply IH. intros t Ht. apply Hne. by apply list_elem_of_further.
    + intros item (s & -> & _)%list_elem_of_fmap. done.
Qed.

(** C7, where the code departs from it: an element that is [null] is not
    dropped; reading [item.file] on it throws a TypeError, both for a flat
    array and for a wrapper object whose [values] holds such an array. *)
Theorem C7_null_element_throws :
  DataviewHelper.parsePageResults (Arr [Null])
  = Throw (TypeError "Cannot read properties of null (reading 'file')")
  ∧ DataviewHelper.parsePageResults
      (Obj {[ "values" := Arr [Str "a.md"; Null] ]})
    = Throw (TypeError "Cannot read properties of null (reading 'file')").
Proof. split; vm_compute; reflexivity. Qed.

End page_results.

(* ===================================================================== *)
(** ** Loading cards *)
(* ===================================================================== *)

Section loading.

Context `{TextOps}.
Implicit Types (w : World) (f : TFile) (fm : Object).

Lemma m_bind_run {A B} (m : M A) (k : A → M B) w :
  (m ≫= k) w = match m w with
               | (Ok a, w') => k a w'
               | (Throw e, w') => (Throw e, w')
               end.
Proof. reflexivity. Qed.

Lemma cardMetadata_status fm :
  field (FrontmatterHelper.cardMetadata fm) "status" = field fm "status".
Proof.
  unfold FrontmatterHelper.cardMetadata, field.
  destruct (fm !! "status") as [v|] eqn:Hs.
  - by rewrite (lookup_union_Some_l _ _ _ _ Hs).
  - rewrite lookup_union_r by done. reflexivity.
Qed.

Lemma cardMetadata_keeps fm k v :
  fm !! k = Some v → FrontmatterHelper.cardMetadata fm !! k = Some v.
Proof. intros Hk. by apply lookup_union_Some_l. Qed.

Lemma frontmatterOf_lookup w f :
  frontmatterOf w f
  = match vault w !! path f with
    | Some (Document _ _ fm) => fm
    | _ => None
    end.
Proof.
  unfold frontmatterOf, getFileCache.
  by destruct (vault w !! path f) as [[|base text fm]|].
Qed.

Lemma loaded_None w f : loaded w f = None ↔ frontmatterOf w f = None.
Proof.
  rewrite frontmatterOf_lookup. unfold loaded.
  by destruct (vault w !! path f) as [[|base text [fm|]]|].
Qed.

(** [loadCard] reads the world and leaves it as it is; it never throws. *)
Lemma loadCard_loaded f w : CardManager.loadCard f w = (Ok (loaded w f), w).
Proof.
  unfold CardManager.loadCard, loaded, FrontmatterHelper.getCardMetadata,
    getFileCache.
  rewrite m_bind_run. cbn [ask].
  destruct (vault w !! path f) as [[|base text [fm|]]|] eqn:Hv;
    cbn [frontmatter]; try reflexivity.
  rewrite m_bind_run. unfold vault_read. by rewrite Hv.
Qed.

Lemma loadCards_cons f files :
  CardManager.loadCards (f :: files)
  = (card ← CardManager.loadCard f;
     more ← CardManager.loadCards files;
     mret (match card with Some c => c :: more | None => more end)).
Proof. reflexivity. Qed.

Lemma loadCards_loaded files w :
  CardManager.loadCards files w = (Ok (omap (loaded w) files), w).
Proof.
  induction files as [|f files IH]; [reflexivity|].
  rewrite loadCards_cons, m_bind_run, loadCard_loaded, m_bind_run, IH.
  cbn [omap list_omap]. by destruct (loaded w f).
Qed.

(** C8: loading one card returns [null] exactly when the document has no
    frontmatter block; a document whose frontmatter has no [status] field
    is loaded, its card having the status [undefined]; loading many returns
    the cards that loaded, in the order of the input, the [null] results
    being skipped.  Neither changes the world, and neither throws. *)
Theorem C8_load_one_and_many w f files :
  (∃ r, CardManager.loadCard f w = (Ok r, w)
        ∧ (r = None ↔ frontmatterOf w f = None))
  ∧ (∀ fm, frontmatterOf w f = Some fm → fm !! "status" = None →
       ∃ card, CardManager.loadCard f w = (Ok (Some card), w)
               ∧ cf_path (file card) = path f
               ∧ field (metadata card) "status" = Undefined)
  ∧ (∃ results,
       Forall2 (λ g r, CardManager.loadCard g w = (Ok r, w)) files results
       ∧ CardManager.loadCards files w = (Ok (omap id results), w)).
Proof.
  split; [|split].
  - exists (loaded w f). split; [apply loadCard_loaded | apply loaded_None].
  - intros fm Hfm Hs. rewrite loadCard_loaded.
    rewrite frontmatterOf_lookup in Hfm. unfold loaded.
    destruct (vault w !! path f) as [[|base text [fm'|]]|]; try done.
    injection Hfm as ->. eexists. split; [reflexivity|]. split; [reflexivity|].
    cbn [metadata cardOf]. rewrite cardMetadata_status. by apply field_None.
  - exists (loaded w <$> files). split.
    + apply Forall2_fmap_r, Forall2_same_length_lookup. split; [done|].
      intros i g g' Hg Hg'. assert (g = g') as -> by congruence.
      apply loadCard_loaded.
    + rewrite loadCards_loaded. f_equal. f_equal.
      induction files as [|g files IH]; [done|].
      rewrite fmap_cons. cbn [omap list_omap id]. rewrite IH.
      reflexivity.
Qed.

End loading.

(* ===================================================================== *)
(** ** Moving a card *)
(* ===================================================================== *)

Section moving.

Context `{TextOps}.
Implicit Types (w : World) (f : TFile) (fm : Object).

Lemma updateStatus_run f newStatus w :
  CardManager.updateStatus f newStatus w
  = processFrontMatter f (FrontmatterHelper.setStatus newStatus (clock w)) w.
Proof. reflexivity. Qed.

Lemma processFrontMatter_Ok f fn w w' :
  processFrontMatter f fn w = (Ok tt, w') →
  ∃ base text (old : option Object),
    vault w !! path f = Some (Document base text old)
    ∧ w' = mkWorld (<[path f := Document base (writeFrontmatter
                                                  (fn (default ∅ old)) text)
                                    (Some (fn (default ∅ old)))]> (vault w))
             (dataview w) (clock w) (console w) (queries w).
Proof.
  unfold processFrontMatter.
  destruct (vault w !! path f) as [[|base text old]|] eqn:Hv; try done.
  intros [= <-]. eauto.
Qed.

Lemma setStatus_status newStatus now fm :
  FrontmatterHelper.setStatus newStatus now fm !! "status"
  = Some (Str newStatus).
Proof.
  unfold FrontmatterHelper.setStatus.
  rewrite lookup_insert_ne by done. apply lookup_insert_eq.
Qed.

Lemma setStatus_stamp newStatus now fm :
  FrontmatterHelper.setStatus newStatus now fm !! "last-updated"
  = Some (Str now).
Proof. unfold FrontmatterHelper.setStatus. apply lookup_insert_eq. Qed.

Lemma setStatus_other newStatus now fm k :
  k ≠ "status" → k ≠ "last-updated" →
  FrontmatterHelper.setStatus newStatus now fm !! k = fm !! k.
Proof.
  intros Hs Hl. unfold FrontmatterHelper.setStatus.
  by rewrite !lookup_insert_ne.
Qed.

(** C5: a move that succeeds leaves the document with [status] equal to the
    new status and [last-updated] equal to the current time, and with every
    other metadata field as it was; the document existed, and no other
    entry of the vault is touched. *)
Theorem C5_move_writes_status_and_stamp f newStatus w w' :
  CardManager.updateStatus f newStatus w = (Ok tt, w') →
  metadataAt w' (path f) !! "status" = Some (Str newStatus)
  ∧ metadataAt w' (path f) !! "last-updated" = Some (Str (clock w))
  ∧ (∀ k, k ≠ "status" → k ≠ "last-updated" →
          metadataAt w' (path f) !! k = metadataAt w (path f) !! k)
  ∧ (∀ p, p ≠ path f → vault w' !! p = vault w !! p)
  ∧ (∃ base text old, vault w !! path f = Some (Document base text old)).
Proof.
  rewrite updateStatus_run.
  intros (base & text & old & Hv & ->)%processFrontMatter_Ok.
  unfold metadataAt. cbn [vault]. rewrite lookup_insert_eq, Hv.
  split; [apply setStatus_status|]. split; [apply setStatus_stamp|].
  split; [|split].
  - intros k Hs Hl. rewrite setStatus_other by done. by destruct old.
  - intros p Hp. by rewrite lookup_insert_ne.
  - eauto.
Qed.

End moving.

Lemma C5_move_writes_status_and_stamp_witness :
  ∃ w',
    @CardManager.updateStatus Sample.plainText (mkTFile "a.md" "a") "done"
      SampleWorld.world = (Ok tt, w')
    ∧ metadataAt w' "a.md" !! "status" = Some (Str "done")
    ∧ metadataAt w' "a.md" !! "priority" = Some (Str "high").
Proof.
  destruct (@CardManager.updateStatus Sample.plainText (mkTFile "a.md" "a")
              "done" SampleWorld.world) as [[[]|e] w'] eqn:Hrun;
    [|vm_compute in Hrun; discriminate Hrun].
  exists w'. split; [reflexivity|].
  destruct (@C5_move_writes_status_and_stamp Sample.plainText _ _ _ _ Hrun)
    as (Hs & _ & Hother & _).
  split; [exact Hs|].
  change "a.md" with (path (mkTFile "a.md" "a")).
  rewrite Hother by done. vm_compute. reflexivity.
Defined.

(* ===================================================================== *)
(** ** Rendering: validation gate and query failure *)
(* ===================================================================== *)

Section rendering.

Context `{TextOps}.
Implicit Types (w : World) (v : BoardView.View) (cfg : BoardConfig).

Lemma try_catch_run {A} (body : M A) handler w :
  try_catch body handler w
  = match body w with
    | (Ok a, w') => (Ok a, w')
    | (Throw e, w') => handler e w'
    end.
Proof. reflexivity. Qed.

Lemma lift_run {A} (r : Res A) w : lift r w = (r, w).
Proof. reflexivity. Qed.

Lemma render_invalid v w :
  isValid (BoardView.view_config v) = false →
  BoardView.render v w
  = (Ok (BoardView.with_container v
           (BoardView.ConfigErrors (configErrors (BoardView.view_config v)))), w).
Proof.
  intros Hv. unfold BoardView.render.
  rewrite m_bind_run, lift_run, validate_typed. cbn [Validator.valid].
  rewrite <- isValid_spec, Hv. reflexivity.
Qed.

Lemma render_valid v w :
  isValid (BoardView.view_config v) = true →
  BoardView.render v w
  = match BoardView.loadCards (BoardView.with_container v BoardView.Loading) w
    with
    | (Ok v', w') =>
        match BoardView.renderBoard v' with
        | Ok _ =>
            (Ok (BoardView.with_container v'
                   (BoardView.Board (BoardView.view_columns v'))), w')
        | Throw e =>
            (Ok (BoardView.with_container v'
                   (BoardView.BoardError ("Error: " +:+ errorMessage e))),
             withLog w' "Board render error:" (LogThrown e))
        end
    | (Throw e, w') =>
        (Ok (BoardView.with_container v
               (BoardView.ErrorText ("Error: " +:+ errorMessage e))),
         withLog w' "Board render error:" (LogThrown e))
    end.
Proof.
  intros Hv. unfold BoardView.render.
  rewrite m_bind_run, lift_run, validate_typed. cbn [Validator.valid].
  rewrite <- isValid_spec, Hv. cbn [negb].
  rewrite try_catch_run, m_bind_run.
  destruct (BoardView.loadCards _ w) as [[v'|e] w']; [|reflexivity].
  rewrite try_catch_run, m_bind_run, lift_run.
  by destruct (BoardView.renderBoard v') as [[]|e].
Qed.

(** Rendering never throws. *)
Lemma render_returns v w : ∃ v' w', BoardView.render v w = (Ok v', w').
Proof.
  destruct (isValid (BoardView.view_config v)) eqn:Hv.
  - rewrite render_valid by done.
    destruct (BoardView.loadCards _ w) as [[v'|e] w']; [|by eauto].
    destruct (BoardView.renderBoard v') as [[]|e]; eauto.
  - rewrite render_invalid by done. eauto.
Qed.

(** Drawing returns exactly when every card of every column can be drawn. *)
Lemma mapM_Ok_unit {A} (f : A → Res unit) (l : list A) :
  (∀ x, x ∈ l → f x = Ok tt) → mapM f l = Ok (replicate (length l) tt).
Proof.
  induction l as [|x l IH]; intros Hall; [reflexivity|].
  cbn [mapM length replicate].
  rewrite (Hall x) by apply list_elem_of_here. rewrite bind_Ok.
  rewrite IH by (intros y Hy; apply Hall; by apply list_elem_of_further).
  reflexivity.
Qed.

Lemma ColumnRenderer_render_Ok config cs :
  (∀ card, card ∈ cs → CardRenderer.render card = Ok tt) →
  ColumnRenderer.render config cs = Ok tt.
Proof.
  intros Hall. unfold ColumnRenderer.render.
  by rewrite (mapM_Ok_unit _ _ Hall).
Qed.

Lemma renderBoard_Ok v :
  (∀ col card, col ∈ BoardView.view_columns v → card ∈ cards col →
               CardRenderer.render card = Ok tt) →
  BoardView.renderBoard v = Ok tt.
Proof.
  intros Hall. unfold BoardView.renderBoard.
  rewrite (mapM_Ok_unit _ (BoardView.view_columns v)); [reflexivity|].
  intros col Hcol. apply ColumnRenderer_render_Ok. eauto.
Qed.

Lemma renderBoard_no_cards v :
  (∀ col, col ∈ BoardView.view_columns v → cards col = []) →
  BoardView.renderBoard v = Ok tt.
Proof.
  intros Hnone. apply renderBoard_Ok. intros col card Hcol Hcard.
  rewrite (Hnone col Hcol) in Hcard. by apply elem_of_nil in Hcard.
Qed.

(** The helper's [executeQuery] always returns, and leaves the vault alone. *)
Lemma executeQuery_returns query sourcePath w :
  ∃ r w', DataviewHelper.executeQuery query sourcePath w = (Ok r, w')
          ∧ vault w' = vault w.
Proof.
  unfold DataviewHelper.executeQuery. rewrite m_bind_run. cbn [ask].
  destruct (dataview w) as [api|]; [|by eauto].
  rewrite try_catch_run, m_bind_run. unfold engine_query. cbv beta.
  destruct (api (vault w) query sourcePath) as [r|e]; [|by eauto].
  rewrite m_bind_run, lift_run.
  destruct (prop r "successful") as [s|e]; [|by eauto].
  rewrite m_bind_run, lift_run.
  destruct (prop r "value") as [val|e]; [|by eauto].
  rewrite m_bind_run, lift_run.
  destruct (prop r "error") as [err|e]; by eauto.
Qed.

Lemma executeQuery_failure w api query sourcePath reason :
  dataview w = Some api →
  EngineFailure (api (vault w) query sourcePath) reason →
  ∃ s val,
    DataviewHelper.executeQuery query sourcePath w
    = (Ok {| successful := s; value := val; error := reason |},
       withQuery w query sourcePath)
    ∧ truthy s = false.
Proof.
  intros Hapi Hfail. unfold DataviewHelper.executeQuery.
  rewrite m_bind_run. cbn [ask]. rewrite Hapi, try_catch_run, m_bind_run.
  unfold engine_query. cbv beta.
  destruct Hfail as [e|o Ho].
  - exists (Bool false), Undefined. done.
  - exists (field o "successful"), (field o "value"). done.
Qed.

Lemma QueryExecutor_failure w api query sourcePath reason :
  dataview w = Some api →
  EngineFailure (api (vault w) query sourcePath) reason →
  QueryExecutor.executeQuery query sourcePath w
  = (Ok [], withLog (withQuery w query sourcePath)
              "Query execution failed:" (LogVal reason)).
Proof.
  intros Hapi Hfail.
  destruct (executeQuery_failure _ _ _ _ _ Hapi Hfail) as (s & val & Hrun & Hs).
  unfold QueryExecutor.executeQuery.
  rewrite m_bind_run, Hrun. cbn [successful error]. rewrite Hs. reflexivity.
Qed.

Lemma group_no_cards cfg : BoardView.group cfg [] = emptyColumns cfg.
Proof. reflexivity. Qed.

End rendering.

Section rendering_claims.

Context `{TextOps}.
Implicit Types (w : World) (v : BoardView.View) (cfg : BoardConfig).

(** C4: on a configuration without columns, validation is not valid and
    its only message is "Board must have at least one column", which
    contains the text "must have at least one column"; rendering shows that
    message and returns at once, in an unchanged world: the engine is not
    called and nothing is loaded. *)
Theorem C4_no_columns_short_circuits v w :
  columns (BoardView.view_config v) = [] →
  Validator.validateBoardConfig (BoardConfig_js (BoardView.view_config v))
  = Ok {| Validator.valid := false;
          Validator.errors := ["Board must have at least one column"] |}
  ∧ (∃ msg, msg ∈ ["Board must have at least one column"]
            ∧ includes msg "must have at least one column" = true)
  ∧ BoardView.render v w
    = (Ok (BoardView.with_container v
             (BoardView.ConfigErrors ["Board must have at least one column"])),
       w)
  ∧ queries (BoardView.render v w).2 = queries w.
Proof.
  intros Hnil.
  assert (configErrors (BoardView.view_config v)
          = ["Board must have at least one column"]) as Herr
    by (unfold configErrors; rewrite Hnil; reflexivity).
  assert (isValid (BoardView.view_config v) = false) as Hinvalid
    by (rewrite isValid_spec, Herr; reflexivity).
  split; [by rewrite validate_typed, Herr|]. split.
  { eexists. split; [apply list_elem_of_here | vm_compute; reflexivity]. }
  rewrite render_invalid by done. rewrite Herr. done.
Qed.

(** C3, as the code has it: when the engine throws on a query, or returns a
    result that is not successful, [DataviewHelper.executeQuery] returns a
    failure value whose [error] is the engine's reason; it throws on no
    query and in no world.
    If that query is the query of a valid board whose document can be read,
    rendering then returns normally with no cards and with one column per
    declared column, each of them empty, and the console holds a new line
    with the reason. *)
Theorem C3_query_failure_gives_empty_columns v w api query sourcePath reason :
  dataview w = Some api →
  EngineFailure (api (vault w) query sourcePath) reason →
  (∃ s val,
     DataviewHelper.executeQuery query sourcePath w
     = (Ok {| successful := s; value := val; error := reason |},
        withQuery w query sourcePath)
     ∧ truthy s = false)
  ∧ (∀ q src w0, ∃ r w', DataviewHelper.executeQuery q src w0 = (Ok r, w'))
  ∧ (∀ content,
       isValid (BoardView.view_config v) = true →
       vault_read (BoardView.boardFile v) w = (Ok content, w) →
       query = BoardView.boardQuery (BoardView.view_config v) content →
       sourcePath = path (BoardView.boardFile v) →
       ∃ v' w',
         BoardView.render v w = (Ok v', w')
         ∧ BoardView.view_cards v' = []
         ∧ BoardView.view_columns v' = emptyColumns (BoardView.view_config v)
         ∧ BoardView.container v'
           = BoardView.Board (emptyColumns (BoardView.view_config v))
         ∧ console w'
           = console w ++ [("Query execution failed:", LogVal reason)]
         ∧ queries w' = queries w ++ [(query, sourcePath)]).
Proof.
  intros Hapi Hfail. split; [by eapply executeQuery_failure|]. split.
  { intros q src w0.
    destruct (executeQuery_returns q src w0) as (r & w' & Hrun & _). eauto. }
  intros content Hvalid Hread -> ->.
  rewrite render_valid by done. unfold BoardView.loadCards.
  rewrite m_bind_run. cbn [BoardView.boardFile BoardView.with_container].
  rewrite Hread, m_bind_run.
  cbn [BoardView.view_config].
  rewrite (QueryExecutor_failure _ _ _ _ _ Hapi Hfail).
  unfold mret, m_ret. cbv beta iota.
  rewrite renderBoard_no_cards.
  - eexists _, _. split; [reflexivity|]. repeat split.
  - by intros col (cc & -> & _)%list_elem_of_fmap.
Qed.

End rendering_claims.

Lemma C4_no_columns_short_circuits_witness :
  columns (BoardView.view_config (SampleWorld.view (Sample.board []))) = []
  ∧ @BoardView.render Sample.plainText (SampleWorld.view (Sample.board []))
      SampleWorld.world
    = (Ok (BoardView.with_container (SampleWorld.view (Sample.board []))
             (BoardView.ConfigErrors ["Board must have at least one column"])),
       SampleWorld.world).
Proof.
  split; [reflexivity|].
  exact (proj1 (proj2 (proj2
    (@C4_no_columns_short_circuits Sample.plainText
       (SampleWorld.view (Sample.board [])) SampleWorld.world eq_refl)))).
Defined.

Lemma C3_query_failure_gives_empty_columns_witness :
  dataview SampleWorld.brokenQueryWorld = Some SampleWorld.alwaysThrows
  ∧ EngineFailure
      (SampleWorld.alwaysThrows (vault SampleWorld.brokenQueryWorld)
         "dv.pages()" "board.md")
      (Str "Unexpected token")
  ∧ ∃ s val,
      DataviewHelper.executeQuery "dv.pages()" "board.md"
        SampleWorld.brokenQueryWorld
      = (Ok {| successful := s; value := val; error := Str "Unexpected token" |},
         withQuery SampleWorld.brokenQueryWorld "dv.pages()" "board.md")
      ∧ truthy s = false.
Proof.
  assert (EngineFailure
            (SampleWorld.alwaysThrows (vault SampleWorld.brokenQueryWorld)
               "dv.pages()" "board.md")
            (Str "Unexpected token")) as Hfail
    by exact (engine_throws (ErrorInstance "Unexpected token")).
  split; [reflexivity|]. split; [exact Hfail|].
  exact (proj1 (@C3_query_failure_gives_empty_columns Sample.plainText
                  (SampleWorld.view Sample.threeColumns)
                  SampleWorld.brokenQueryWorld _ _ _ _ eq_refl Hfail)).
Defined.

(** C3, as the claim has it, fails: when the engine throws, a board with
    three declared columns is rendered with three columns, not with an empty
    column set. *)
Lemma C3_failed_query_columns_counterexample :
  ∃ v' w',
    @BoardView.render Sample.plainText (SampleWorld.view Sample.threeColumns)
      SampleWorld.brokenQueryWorld = (Ok v', w')
    ∧ BoardView.view_columns v' ≠ []
    ∧ length (BoardView.view_columns v') = 3.
Proof.
  eexists _, _. split; [vm_compute; reflexivity|]. split; [discriminate|].
  reflexivity.
Qed.

(* ===================================================================== *)
(** ** Move, then render again *)
(* ===================================================================== *)

Section round_trip.

Context `{TextOps}.
Implicit Types (w : World) (v : BoardView.View) (f : TFile) (p : string).

Lemma loaded_vault w w' f : vault w = vault w' → loaded w f = loaded w' f.
Proof. intros Hv. unfold loaded. by rewrite Hv. Qed.

Lemma getFilesFromPaths_vault w w' paths :
  vault w = vault w' →
  QueryExecutor.getFilesFromPaths w paths
  = QueryExecutor.getFilesFromPaths w' paths.
Proof.
  intros Hv. unfold QueryExecutor.getFilesFromPaths, getAbstractFileByPath.
  by rewrite Hv.
Qed.

(** When the selection of paths succeeds, so does the loading of the board,
    and its cards are the documents at those paths that have frontmatter. *)
Lemma loadCards_selected v w paths w2 :
  selectedPaths v w = (Ok paths, w2) →
  ∃ w3,
    BoardView.loadCards v w
    = (Ok (BoardView.groupCards
             (BoardView.with_cards v
                (omap (loaded w) (QueryExecutor.getFilesFromPaths w paths)))),
       w3).
Proof.
  unfold selectedPaths, BoardView.loadCards. rewrite !m_bind_run.
  destruct (vault_read (BoardView.boardFile v) w) as [[content|e] w0] eqn:Hread;
    [|done].
  assert (w0 = w) as ->.
  { unfold vault_read in Hread.
    destruct (vault w !! path (BoardView.boardFile v)) as [[|? ? ?]|];
      by injection Hread. }
  rewrite !m_bind_run. unfold QueryExecutor.executeQuery. rewrite m_bind_run.
  destruct (executeQuery_returns
              (BoardView.boardQuery (BoardView.view_config v) content)
              (path (BoardView.boardFile v)) w) as (r & w1 & -> & Hvault).
  destruct (truthy (successful r)); cbn [negb].
  - rewrite lift_run. intros [= -> ->].
    rewrite !m_bind_run, lift_run, m_bind_run. cbn [ask].
    rewrite loadCards_loaded.
    rewrite (getFilesFromPaths_vault w2 w) by done.
    erewrite (list_omap_ext (loaded w2) (loaded w)).
    + eexists. reflexivity.
    + apply Forall2_same_length_lookup. split; [done|].
      intros i x y Hx Hy. assert (x = y) as -> by congruence.
      by rewrite (loaded_vault w2 w).
  - intros [= <- <-]. rewrite m_bind_run. eexists. reflexivity.
Qed.

Lemma elem_of_getFilesFromPaths w paths p base text fm :
  Str p ∈ paths →
  vault w !! p = Some (Document base text fm) →
  mkTFile p base ∈ QueryExecutor.getFilesFromPaths w paths.
Proof.
  intros Hin Hv. unfold QueryExecutor.getFilesFromPaths.
  apply list_elem_of_omap. exists (Str p). split; [done|].
  unfold getAbstractFileByPath. cbn [toString]. by rewrite Hv.
Qed.

Lemma loaded_Some w f card :
  loaded w f = Some card →
  ∃ base text fm,
    vault w !! path f = Some (Document base text (Some fm))
    ∧ card = cardOf f fm text.
Proof.
  unfold loaded.
  destruct (vault w !! path f) as [[|base text [fm|]]|]; try done.
  intros [= <-]. eauto.
Qed.

End round_trip.

Section round_trip_claim.

Context `{TextOps}.
Implicit Types (w : World) (v : BoardView.View) (f : TFile) (p : string).

Lemma getAbstractFileByPath_AFile w p f :
  getAbstractFileByPath w p = Some (AFile f) →
  ∃ base text old,
    vault w !! p = Some (Document base text old) ∧ f = mkTFile p base.
Proof.
  unfold getAbstractFileByPath.
  destruct (vault w !! p) as [[|base text old]|]; try done.
  intros [= <-]. eauto.
Qed.

(** After a move to [newStatus], every card loaded from the moved document
    has that status. *)
Lemma loaded_after_move w w1 f newStatus g card :
  CardManager.updateStatus f newStatus w = (Ok tt, w1) →
  loaded w1 g = Some card →
  cf_path (file card) = path f →
  field (metadata card) "status" = Str newStatus.
Proof.
  rewrite updateStatus_run.
  intros (base & text & old & Hv & ->)%processFrontMatter_Ok
         (b & t & fm & Hg & ->)%loaded_Some Hpath.
  cbn [file cardOf cf_path] in Hpath. cbn [vault] in Hg.
  rewrite Hpath, lookup_insert_eq in Hg. injection Hg as _ _ <-.
  cbn [metadata cardOf]. rewrite cardMetadata_status.
  apply field_Some, setStatus_status.
Qed.

(** After a move, the moved document loads as a card. *)
Lemma moved_document_loads w w1 f newStatus :
  CardManager.updateStatus f newStatus w = (Ok tt, w1) →
  ∃ base text fm,
    vault w1 !! path f = Some (Document base text (Some fm))
    ∧ loaded w1 (mkTFile (path f) base)
      = Some (cardOf (mkTFile (path f) base) fm text).
Proof.
  rewrite updateStatus_run.
  intros (base & text & old & Hv & ->)%processFrontMatter_Ok.
  eexists base, _, _. cbn [vault]. rewrite lookup_insert_eq.
  split; [reflexivity|]. unfold loaded. cbn [vault path].
  by rewrite lookup_insert_eq.
Qed.

Lemma drop_run v p f w w1 status :
  status ≠ "" → p ≠ "" →
  getAbstractFileByPath w p = Some (AFile f) →
  CardManager.updateStatus f status w = (Ok tt, w1) →
  BoardView.drop v status p w = BoardView.render v w1.
Proof.
  intros Hs Hp Hf Hmove. unfold BoardView.drop.
  destruct (String.eqb_spec status ""); [done|].
  destruct (String.eqb_spec p ""); [done|]. cbn [orb].
  rewrite m_bind_run. cbn [ask]. rewrite Hf, m_bind_run, Hmove. reflexivity.
Qed.

Lemma getFilesFromPaths_path w paths g :
  g ∈ QueryExecutor.getFilesFromPaths w paths →
  ∃ x, x ∈ paths ∧ path g = toString x.
Proof.
  unfold QueryExecutor.getFilesFromPaths.
  intros (x & Hx & Hg)%list_elem_of_omap. exists x. split; [done|].
  destruct (getAbstractFileByPath w (toString x)) as [[|g']|] eqn:Hfile;
    try done.
  injection Hg as ->.
  by destruct (getAbstractFileByPath_AFile _ _ _ Hfile) as (? & ? & ? & _ & ->).
Qed.

Lemma renderBoard_with_container v d :
  BoardView.renderBoard (BoardView.with_container v d)
  = BoardView.renderBoard v.
Proof. reflexivity. Qed.

(** C6, as the code has it: take a valid board that declares a column with
    status "done", and a card document.  Dropping the card on a "done"
    column writes the status and renders the board again.  When the board's
    query can be evaluated on the vault as the move left it, the view then
    has a "done" column and no column with another status holds the card;
    every "done" column holds the card provided that the query, evaluated
    after the move, selects it, and no column at all holds the card when
    that query selects no path that reads as the card's.  The container
    shows these columns, or the fault when drawing one of their cards
    throws; the columns of the view are the same in both cases. *)
Theorem C6_move_then_render v w p f w1 paths w2 :
  isValid (BoardView.view_config v) = true →
  (∃ cc, cc ∈ columns (BoardView.view_config v) ∧ status cc = Str "done") →
  p ≠ "" →
  getAbstractFileByPath w p = Some (AFile f) →
  CardManager.updateStatus f "done" w = (Ok tt, w1) →
  selectedPaths v w1 = (Ok paths, w2) →
  ∃ v' w',
    BoardView.drop v "done" p w = (Ok v', w')
    ∧ BoardView.container v'
      = match BoardView.renderBoard v' with
        | Ok _ => BoardView.Board (BoardView.view_columns v')
        | Throw e => BoardView.BoardError ("Error: " +:+ errorMessage e)
        end
    ∧ (∃ col, col ∈ BoardView.view_columns v'
              ∧ status (config col) = Str "done")
    ∧ (Str p ∈ paths →
       ∀ col, col ∈ BoardView.view_columns v' →
              status (config col) = Str "done" → holds col p)
    ∧ (∀ col, col ∈ BoardView.view_columns v' →
              status (config col) ≠ Str "done" → ¬ holds col p)
    ∧ ((∀ x, x ∈ paths → toString x ≠ p) →
       ∀ col, col ∈ BoardView.view_columns v' → ¬ holds col p).
Proof.
  intros Hvalid (cc & Hcc & Hdone) Hp Hf Hmove Hsel.
  rewrite (drop_run v p f w w1 "done") by done.
  rewrite render_valid by done.
  destruct (loadCards_selected (BoardView.with_container v BoardView.Loading)
              w1 paths w2 Hsel) as (w3 & ->).
  set (cs := omap (loaded w1) (QueryExecutor.getFilesFromPaths w1 paths)).
  set (v1 := BoardView.groupCards
               (BoardView.with_cards
                  (BoardView.with_container v BoardView.Loading) cs)).
  assert (∀ col, col ∈ BoardView.view_columns v1 →
            ∃ c, c ∈ columns (BoardView.view_config v)
                 ∧ col = {| config := c;
                            cards := List.filter (BoardView.inColumn c) cs |})
    as Hcols.
  { intros col (c & -> & Hc)%list_elem_of_fmap. eauto. }
  destruct (getAbstractFileByPath_AFile _ _ _ Hf)
    as (base & text & old & Hv & ->).
  assert ((∃ col, col ∈ BoardView.view_columns v1
                  ∧ status (config col) = Str "done")
          ∧ (Str p ∈ paths →
             ∀ col, col ∈ BoardView.view_columns v1 →
                    status (config col) = Str "done" → holds col p)
          ∧ (∀ col, col ∈ BoardView.view_columns v1 →
                    status (config col) ≠ Str "done" → ¬ holds col p)
          ∧ ((∀ x, x ∈ paths → toString x ≠ p) →
             ∀ col, col ∈ BoardView.view_columns v1 → ¬ holds col p))
    as Hmembers.
  { split; [|split; [|split]].
    - exists {| config := cc;
                cards := List.filter (BoardView.inColumn cc) cs |}.
      split; [|exact Hdone].
      apply list_elem_of_fmap. eauto.
    - intros Hin col (c & Hc & ->)%Hcols Hst. cbn [config] in Hst.
      destruct (moved_document_loads _ _ _ _ Hmove)
        as (base' & text' & fm' & Hv1 & Hload). cbn [path] in Hv1, Hload.
      exists (cardOf (mkTFile p base') fm' text'). split; [|reflexivity].
      cbn [cards]. apply elem_of_filter_bool. split.
      + apply list_elem_of_omap. exists (mkTFile p base'). split; [|done].
        by eapply elem_of_getFilesFromPaths.
      + unfold BoardView.inColumn.
        rewrite (loaded_after_move _ _ _ _ _ _ Hmove Hload) by reflexivity.
        rewrite Hst. apply String.eqb_refl.
    - intros col (c & Hc & ->)%Hcols Hst (card & Hcard & Hpath).
      cbn [config cards] in *.
      apply elem_of_filter_bool in Hcard as [Hcs Hmatch].
      apply list_elem_of_omap in Hcs as (g & _ & Hg).
      unfold BoardView.inColumn in Hmatch.
      rewrite (loaded_after_move _ _ _ _ _ _ Hmove Hg) in Hmatch by done.
      apply strict_eq_Str_l in Hmatch. done.
    - intros Hnone col (c & Hc & ->)%Hcols (card & Hcard & Hpath).
      cbn [cards] in Hcard.
      apply elem_of_filter_bool in Hcard as [Hcs _].
      apply list_elem_of_omap in Hcs as (g & Hg & Hload).
      apply getFilesFromPaths_path in Hg as (x & Hx & Hgx).
      apply loaded_Some in Hload as (? & ? & ? & _ & ->).
      cbn [file cardOf cf_path] in Hpath.
      apply (Hnone x Hx). congruence. }
  destruct (BoardView.renderBoard v1) as [[]|e] eqn:Hdraw.
  - eexists _, _. split; [reflexivity|].
    split; [by rewrite renderBoard_with_container, Hdraw|]. exact Hmembers.
  - eexists _, _. split; [reflexivity|].
    split; [by rewrite renderBoard_with_container, Hdraw|]. exact Hmembers.
Qed.

End round_trip_claim.

Lemma C6_move_then_render_witness :
  isValid Sample.threeColumns = true
  ∧ getAbstractFileByPath SampleWorld.world "a.md"
    = Some (AFile (mkTFile "a.md" "a"))
  ∧ ∃ v' w',
      @BoardView.drop Sample.plainText (SampleWorld.view Sample.threeColumns)
        "done" "a.md" SampleWorld.world = (Ok v', w')
      ∧ (∃ col, col ∈ BoardView.view_columns v'
                ∧ status (config col) = Str "done")
      ∧ (∀ col, col ∈ BoardView.view_columns v' →
                status (config col) = Str "done" → holds col "a.md")
      ∧ (∀ col, col ∈ BoardView.view_columns v' →
                status (config col) ≠ Str "done" → ¬ holds col "a.md").
Proof.
  pose (v := SampleWorld.view Sample.threeColumns).
  pose (f := mkTFile "a.md" "a").
  pose (w1 := (@CardManager.updateStatus Sample.plainText f "done"
                 SampleWorld.world).2).
  pose (w2 := (@selectedPaths Sample.plainText v w1).2).
  assert (isValid Sample.threeColumns = true) as Hvalid
    by (vm_compute; reflexivity).
  assert (getAbstractFileByPath SampleWorld.world "a.md" = Some (AFile f))
    as Hfile by (vm_compute; reflexivity).
  split; [exact Hvalid|]. split; [exact Hfile|].
  destruct (@C6_move_then_render Sample.plainText v SampleWorld.world "a.md" f
              w1 [Str "a.md"; Str "b.md"; Str "c.md"] w2)
    as (v' & w' & Hdrop & _ & Hex & Hin & Hout & _).
  - exact Hvalid.
  - exists (Sample.column "Done" "done"). split; [|reflexivity].
    unfold v. cbn. apply list_elem_of_further, list_elem_of_further,
      list_elem_of_here.
  - discriminate.
  - exact Hfile.
  - vm_compute. reflexivity.
  - vm_compute. reflexivity.
  - exists v', w'. split; [exact Hdrop|]. split; [exact Hex|].
    split; [exact (Hin (list_elem_of_here _ _)) | exact Hout].
Defined.

(** C6, as the claim has it, fails.  On a board whose query selects the
    cards that are not done, the card a.md is selected and sits in the
    "todo" column; once it is moved to "done" and the board is rendered
    again, the board has its "done" column and no column holds the card. *)
Lemma C6_status_query_counterexample :
  ∃ paths w0 v0 w0' v' w',
    @selectedPaths Sample.plainText (SampleWorld.view Sample.threeColumns)
      SampleWorld.openWorld = (Ok paths, w0)
    ∧ Str "a.md" ∈ paths
    ∧ @BoardView.render Sample.plainText (SampleWorld.view Sample.threeColumns)
        SampleWorld.openWorld = (Ok v0, w0')
    ∧ (∃ col, col ∈ BoardView.view_columns v0
              ∧ status (config col) = Str "todo" ∧ holds col "a.md")
    ∧ @BoardView.drop Sample.plainText v0 "done" "a.md" w0' = (Ok v', w')
    ∧ (∃ col, col ∈ BoardView.view_columns v'
              ∧ status (config col) = Str "done")
    ∧ (∀ col, col ∈ BoardView.view_columns v' → ¬ holds col "a.md").
Proof.
  eexists _, _, _, _, _, _.
  split; [vm_compute; reflexivity|].
  split; [apply list_elem_of_here|].
  split; [vm_compute; reflexivity|].
  split.
  { eexists. split; [apply list_elem_of_here|]. split; [reflexivity|].
    eexists. split; [apply list_elem_of_here | reflexivity]. }
  split; [vm_compute; reflexivity|].
  split.
  { eexists. split; [apply list_elem_of_further, list_elem_of_further,
                       list_elem_of_here | reflexivity]. }
  intros col Hcol (card & Hcard & Hpath).
  cbn [BoardView.view_columns] in Hcol.
  repeat (apply elem_of_cons in Hcol as [->|Hcol]);
    try (by apply elem_of_nil in Hcol);
    cbn [cards] in Hcard;
    repeat (apply elem_of_cons in Hcard as [->|Hcard]);
    try (by apply elem_of_nil in Hcard);
    cbn [file cf_path] in Hpath; discriminate Hpath.
Qed.

(* ===================================================================== *)
(** ** Further properties: validation *)
(* ===================================================================== *)

Section validation_more.

Implicit Types (cfg : BoardConfig) (o : Object) (cc : ColumnConfig).

Lemma columnErrors_nil (l : list ColumnConfig) index :
  columnErrors l index = []
  ↔ ∀ cc, cc ∈ l → truthy (name cc) = true ∧ truthy (status cc) = true.
Proof.
  revert index. induction l as [|c l IH]; intros index; simpl.
  - split; [|done]. intros _ cc Hcc. by apply elem_of_nil in Hcc.
  - split.
    + intros Hnil. apply app_eq_nil in Hnil as [Hc Hl].
      apply app_eq_nil in Hc as [Hn Hs].
      intros cc [->|Hcc]%elem_of_cons.
      * split; [by destruct (truthy (name c)) | by destruct (truthy (status c))].
      * by apply (proj1 (IH (S index)) Hl).
    + intros Hall.
      destruct (Hall c (list_elem_of_here _ _)) as [-> ->]. simpl.
      apply IH. intros cc Hcc. apply Hall. by apply list_elem_of_further.
Qed.

Lemma columnErrors_lookup (l : list ColumnConfig) index i cc :
  l !! i = Some cc →
  (truthy (name cc) = false →
   "Column " +:+ pretty (index + i + 1) +:+ " missing name"
   ∈ columnErrors l index)
  ∧ (truthy (status cc) = false →
     "Column " +:+ pretty (index + i + 1) +:+ " missing status value"
     ∈ columnErrors l index).
Proof.
  revert index i. induction l as [|c l IH]; intros index i Hi; [done|].
  destruct i as [|i]; simpl in Hi.
  - injection Hi as ->. rewrite Nat.add_0_r. cbn [columnErrors]. split.
    + intros ->. apply elem_of_app. left. apply list_elem_of_here.
    + intros ->. apply elem_of_app. left. apply elem_of_app. right.
      apply list_elem_of_here.
  - destruct (IH (S index) i Hi) as [Hn Hs].
    replace (index + S i + 1) with (S index + i + 1) by lia.
    cbn [columnErrors]. split; intros Hf; apply elem_of_app; right; auto.
Qed.

Lemma columnErrors_shape (l : list ColumnConfig) index msg :
  msg ∈ columnErrors l index →
  ∃ i cc, l !! i = Some cc
    ∧ ((truthy (name cc) = false
        ∧ msg = "Column " +:+ pretty (index + i + 1) +:+ " missing name")
       ∨ (truthy (status cc) = false
          ∧ msg = "Column " +:+ pretty (index + i + 1)
                  +:+ " missing status value")).
Proof.
  revert index. induction l as [|c l IH]; intros index; cbn [columnErrors].
  - intros Hin. by apply elem_of_nil in Hin.
  - intros [[Hn|Hs]%elem_of_app|Hrest]%elem_of_app.
    + exists 0, c. rewrite Nat.add_0_r. split; [done|]. left.
      destruct (truthy (name c)); [by apply elem_of_nil in Hn|].
      apply list_elem_of_singleton in Hn. done.
    + exists 0, c. rewrite Nat.add_0_r. split; [done|]. right.
      destruct (truthy (status c)); [by apply elem_of_nil in Hs|].
      apply list_elem_of_singleton in Hs. done.
    + destruct (IH _ Hrest) as (i & cc & Hi & Hmsg).
      exists (S i), cc. split; [done|].
      replace (index + S i + 1) with (S index + i + 1) by lia. done.
Qed.

(** X1: on a typed configuration validation never throws, and it is valid
    exactly when there is at least one column and every column has a truthy
    name and a truthy status. *)
Theorem X1_valid_iff_columns_named cfg :
  ∃ r, Validator.validateBoardConfig (BoardConfig_js cfg) = Ok r
       ∧ (Validator.valid r = true
          ↔ columns cfg ≠ []
            ∧ ∀ cc, cc ∈ columns cfg →
                    truthy (name cc) = true ∧ truthy (status cc) = true).
Proof.
  eexists. split; [apply validate_typed|]. cbn [Validator.valid].
  rewrite bool_decide_eq_true. unfold configErrors.
  destruct (columns cfg) as [|c l] eqn:Hc.
  - rewrite bool_decide_true by done. split; [done | by intros [? _]].
  - rewrite bool_decide_false by done. cbn [app].
    rewrite columnErrors_nil. split; [by intros ? | by intros [_ ?]].
Qed.

(** X2: validation names a faulty column by its 1-based position: when the
    column at 0-based position [i] has a falsy name, respectively status,
    the message list holds "Column i+1 missing name", respectively
    "Column i+1 missing status value". *)
Theorem X2_errors_name_the_position cfg i cc :
  columns cfg !! i = Some cc →
  ∃ r, Validator.validateBoardConfig (BoardConfig_js cfg) = Ok r
       ∧ (truthy (name cc) = false →
          "Column " +:+ pretty (i + 1) +:+ " missing name"
          ∈ Validator.errors r)
       ∧ (truthy (status cc) = false →
          "Column " +:+ pretty (i + 1) +:+ " missing status value"
          ∈ Validator.errors r).
Proof.
  intros Hi. eexists. split; [apply validate_typed|].
  cbn [Validator.errors]. unfold configErrors.
  destruct (columnErrors_lookup _ 0 _ _ Hi) as [Hn Hs]. cbn [Nat.add] in Hn, Hs.
  split; intros Hf; apply elem_of_app; right; auto.
Qed.

(** X3: what validation does with a [columns] field that is not an array:
    for a missing or [null] field it returns the single message "Board must
    have columns defined"; for any other value it throws a TypeError, after
    the guard, when it calls [forEach]. *)
Theorem X3_columns_not_an_array o :
  isArray (field o "columns") = false →
  Validator.validateBoardConfig (Obj o)
  = if nullish (field o "columns")
    then Ok {| Validator.valid := false;
               Validator.errors := ["Board must have columns defined"] |}
    else Throw (TypeError "config.columns?.forEach is not a function").
Proof.
  intros Harr. unfold Validator.validateBoardConfig.
  rewrite prop_Obj, bind_Ok.
  destruct (field o "columns") as [| |b|n| |s|items|props] eqn:Hc;
    try discriminate Harr; try reflexivity.
  - destruct b; reflexivity.
  - cbn [truthy]. destruct (negb (n =? 0)%Z); reflexivity.
  - cbn [truthy prop]. destruct (negb (String.eqb s "")); reflexivity.
Qed.

End validation_more.

Lemma X2_errors_name_the_position_witness :
  columns (Sample.board [Sample.column "To Do" "todo"; Sample.column "Later" ""])
    !! 1 = Some (Sample.column "Later" "")
  ∧ ∃ r, Validator.validateBoardConfig
           (BoardConfig_js (Sample.board [Sample.column "To Do" "todo";
                                          Sample.column "Later" ""]))
         = Ok r
         ∧ "Column 2 missing status value" ∈ Validator.errors r.
Proof.
  split; [reflexivity|].
  destruct (X2_errors_name_the_position
              (Sample.board [Sample.column "To Do" "todo";
                             Sample.column "Later" ""])
              1 (Sample.column "Later" "") eq_refl) as (r & Hr & _ & Hs).
  exists r. split; [exact Hr|]. apply Hs. reflexivity.
Defined.

Lemma X3_columns_not_an_array_witness :
  isArray (field {[ "columns" := Str "todo" ]} "columns") = false
  ∧ Validator.validateBoardConfig (Obj {[ "columns" := Str "todo" ]})
    = Throw (TypeError "config.columns?.forEach is not a function")
  ∧ Validator.validateBoardConfig (Obj ∅)
    = Ok {| Validator.valid := false;
            Validator.errors := ["Board must have columns defined"] |}.
Proof.
  split; [reflexivity|]. split.
  - exact (X3_columns_not_an_array {[ "columns" := Str "todo" ]} eq_refl).
  - exact (X3_columns_not_an_array ∅ eq_refl).
Defined.

(* ===================================================================== *)
(** ** Further properties: parsing, then validating *)
(* ===================================================================== *)

Section parsing_more.

Implicit Types (cache : CachedMetadata) (cfg : BoardConfig) (fm : Object).

Lemma mapM_Ok_inv {A B} (f : A → Res B) (l : list A) (k : list B) :
  mapM f l = Ok k → Forall2 (λ x y, f x = Ok y) l k.
Proof.
  revert k. induction l as [|x l IH]; intros k; cbn [mapM].
  - intros [= <-]. constructor.
  - destruct (f x) as [y|e] eqn:Hf; [|done]. rewrite bind_Ok.
    destruct (mapM f l) as [k'|e] eqn:Hm; [|done]. rewrite bind_Ok.
    intros [= <-]. constructor; auto.
Qed.

Lemma parseColumn_Ok col cc :
  BoardParser.parseColumn col = Ok cc → nullish col = false ∧ cc = columnOf col.
Proof.
  destruct (nullish col) eqn:Hn.
  - rewrite parseColumn_nullish by done. done.
  - rewrite parseColumn_columnOf by done. intros [= <-]. done.
Qed.

Lemma columnOf_name_truthy col : truthy (name (columnOf col)) = true.
Proof.
  cbn [columnOf name]. unfold or_else.
  by destruct (truthy (opt_prop col "name")) eqn:Hn.
Qed.

(** What a successful parse tells about the frontmatter. *)
Lemma parseBoardConfig_Some cache cfg :
  BoardParser.parseBoardConfig cache = Ok (Some cfg) →
  ∃ fm items,
    frontmatter cache = Some fm
    ∧ BoardParser.isBoardFile (Some cache) = true
    ∧ or_else (field fm "columns") (Arr []) = Arr items
    ∧ (∀ col, col ∈ items → nullish col = false)
    ∧ cfg = {| boardId := or_else (field fm "board-id") (Str "");
               columns := columnOf <$> items;
               cardTemplate := field fm "card-template";
               autoRefresh := coalesce (field fm "auto-refresh") (Bool true);
               refreshInterval :=
                 coalesce (field fm "refresh-interval") (Num 30) |}.
Proof.
  unfold BoardParser.parseBoardConfig.
  destruct (BoardParser.isBoardFile (Some cache)) eqn:Hb; cbn [negb]; [|done].
  destruct (frontmatter cache) as [fm|] eqn:Hfm; [|done].
  destruct (array_map _ _ _) as [cols|e] eqn:Hmap; [|done].
  rewrite bind_Ok. intros [= <-]. exists fm.
  destruct (or_else (field fm "columns") (Arr [])) as [| |b|n| |s|items|props];
    try discriminate Hmap.
  cbn [array_map] in Hmap. apply mapM_Ok_inv in Hmap.
  exists items. repeat split; try done.
  - intros col Hcol. apply list_elem_of_lookup in Hcol as [i Hi].
    destruct (Forall2_lookup_l _ _ _ _ _ Hmap Hi) as (cc & _ & Hcc).
    by apply parseColumn_Ok in Hcc as [? _].
  - f_equal. apply list_eq_same_length with (length items).
    + by rewrite length_fmap.
    + symmetry. exact (Forall2_length _ _ _ Hmap).
    + intros i x y _ Hx Hy. rewrite list_lookup_fmap in Hy.
      destruct (items !! i) as [col|] eqn:Hi; [|done]. injection Hy as <-.
      destruct (Forall2_lookup_l _ _ _ _ _ Hmap Hi) as (cc & Hcc & Hp).
      apply parseColumn_Ok in Hp as [_ ->]. congruence.
Qed.

(** X4: whatever the frontmatter, a configuration that [parseBoardConfig]
    returns has a truthy name in every column, and validating it never
    throws; the only messages validation can then give are "Board must have
    at least one column" and "Column n missing status value": the messages
    about undefined columns and missing names cannot occur after parsing. *)
Theorem X4_messages_after_parsing cache cfg :
  BoardParser.parseBoardConfig cache = Ok (Some cfg) →
  (∀ cc, cc ∈ columns cfg → truthy (name cc) = true)
  ∧ ∃ r, Validator.validateBoardConfig (BoardConfig_js cfg) = Ok r
         ∧ ∀ msg, msg ∈ Validator.errors r →
             msg = "Board must have at least one column"
             ∨ ∃ n : nat,
                 msg = "Column " +:+ pretty n +:+ " missing status value".
Proof.
  intros (fm & items & _ & _ & _ & _ & ->)%parseBoardConfig_Some.
  cbn [columns].
  assert (∀ cc, cc ∈ columnOf <$> items → truthy (name cc) = true) as Hnames.
  { intros cc (col & -> & _)%list_elem_of_fmap. apply columnOf_name_truthy. }
  split; [exact Hnames|].
  eexists. split; [apply validate_typed|].
  cbn [Validator.errors]. unfold configErrors. cbn [columns].
  intros msg [Hnone|Hcol]%elem_of_app.
  - left. destruct (bool_decide _); [|by apply elem_of_nil in Hnone].
    by apply list_elem_of_singleton in Hnone.
  - right. apply columnErrors_shape in Hcol
      as (i & cc & Hi & [[Hn _]|[_ ->]]); [|by eexists].
    rewrite Hnames in Hn; [done|]. by eapply list_elem_of_lookup_2.
Qed.

(** X5: the three places that decide whether a document is a board agree
    ([BoardParser.isBoardFile], the guard of the command [createCard], and
    [FrontmatterHelper.getBoardConfig], which returns [null] for the same
    documents as [parseBoardConfig]); and where [parseBoardConfig] returns a
    configuration, [getBoardConfig] returns an object with the same board
    id, template and refresh settings and with the raw column list, which
    has as many entries as there are parsed columns. *)
Theorem X5_board_checks_agree (cache : option CachedMetadata) :
  (Frontmatter.getBoardConfig cache = Null
   ↔ BoardParser.isBoardFile cache = false)
  ∧ BoardCommands.notABoard cache = negb (BoardParser.isBoardFile cache)
  ∧ (∀ c, cache = Some c →
       (BoardParser.parseBoardConfig c = Ok None
        ↔ Frontmatter.getBoardConfig cache = Null))
  ∧ (∀ c cfg, cache = Some c →
       BoardParser.parseBoardConfig c = Ok (Some cfg) →
       ∃ o items,
         Frontmatter.getBoardConfig cache = Obj o
         ∧ field o "boardId" = boardId cfg
         ∧ field o "cardTemplate" = cardTemplate cfg
         ∧ field o "autoRefresh" = autoRefresh cfg
         ∧ field o "refreshInterval" = refreshInterval cfg
         ∧ field o "columns" = Arr items
         ∧ length items = length (columns cfg)).
Proof.
  assert (Frontmatter.getBoardConfig cache = Null
          ↔ BoardParser.isBoardFile cache = false) as Hnull.
  { unfold Frontmatter.getBoardConfig, BoardParser.isBoardFile.
    destruct cache as [c|]; [|done].
    destruct (frontmatter c) as [fm|]; [|done].
    by destruct (strict_eq (field fm "type") (Str "kanban-board")). }
  split; [exact Hnull|]. split; [|split].
  - unfold BoardCommands.notABoard, BoardParser.isBoardFile.
    destruct cache as [c|]; [|done]. by destruct (frontmatter c).
  - intros c ->. rewrite parseBoardConfig_null_iff. symmetry. exact Hnull.
  - intros c cfg ->
      (fm & items & Hfm & Hb & Hitems & _ & ->)%parseBoardConfig_Some.
    unfold Frontmatter.getBoardConfig. rewrite Hfm.
    unfold BoardParser.isBoardFile in Hb. rewrite Hfm in Hb. rewrite Hb.
    cbn [negb]. eexists _, items. split; [reflexivity|].
    rewrite Hitems. cbn [boardId cardTemplate autoRefresh refreshInterval columns].
    rewrite length_fmap. repeat split; reflexivity.
Qed.

End parsing_more.

Lemma X4_messages_after_parsing_witness :
  ∃ cfg,
    BoardParser.parseBoardConfig
      (mkCache (Some {[ "type" := Str "kanban-board";
                        "columns" := Arr [Obj {[ "status" := Str "todo" ]};
                                          Obj {[ "name" := Str "Later" ]}] ]}))
    = Ok (Some cfg)
    ∧ (name <$> columns cfg) = [Str "Unnamed"; Str "Later"]
    ∧ ∀ cc, cc ∈ columns cfg → truthy (name cc) = true.
Proof.
  eexists. split; [vm_compute; reflexivity|]. split; [reflexivity|].
  refine (proj1 (X4_messages_after_parsing
                   (mkCache (Some {[ "type" := Str "kanban-board";
                        "columns" := Arr [Obj {[ "status" := Str "todo" ]};
                                          Obj {[ "name" := Str "Later" ]}] ]}))
                   _ _)).
  vm_compute. reflexivity.
Defined.

(* ===================================================================== *)
(** ** Further properties: reading and writing card metadata *)
(* ===================================================================== *)

Section metadata_more.

Context `{TextOps}.
Implicit Types (w : World) (f : TFile) (fm updates : Object).

Lemma assignUpdates_status newStatus now fm :
  Frontmatter.assignUpdates {[ "status" := Str newStatus ]} now fm
  = FrontmatterHelper.setStatus newStatus now fm.
Proof.
  unfold Frontmatter.assignUpdates, FrontmatterHelper.setStatus.
  by rewrite <- insert_union_singleton_l.
Qed.

(** X6: [updateCardStatus] is [updateCardMetadata] with the single update
    [{status: newStatus}]: the two write paths leave the same world. *)
Theorem X6_status_update_is_metadata_update f newStatus w :
  FrontmatterHelper.updateCardStatus f newStatus w
  = Frontmatter.updateCardMetadata f {[ "status" := Str newStatus ]} w.
Proof.
  unfold FrontmatterHelper.updateCardStatus, Frontmatter.updateCardMetadata.
  rewrite !m_bind_run. cbn [ask]. unfold processFrontMatter.
  destruct (vault w !! path f) as [[|base text old]|]; try reflexivity.
  by rewrite assignUpdates_status.
Qed.

(** X7: an update of card metadata that succeeds writes every field of
    [updates] except [last-updated], which always gets the current time,
    also when [updates] holds one; a field outside [updates] keeps its
    value, and no other document changes. *)
Theorem X7_metadata_update_frame f updates w w' :
  Frontmatter.updateCardMetadata f updates w = (Ok tt, w') →
  metadataAt w' (path f) !! "last-updated" = Some (Str (clock w))
  ∧ (∀ k v, k ≠ "last-updated" → updates !! k = Some v →
            metadataAt w' (path f) !! k = Some v)
  ∧ (∀ k, k ≠ "last-updated" → updates !! k = None →
          metadataAt w' (path f) !! k = metadataAt w (path f) !! k)
  ∧ (∀ p, p ≠ path f → vault w' !! p = vault w !! p).
Proof.
  unfold Frontmatter.updateCardMetadata. rewrite m_bind_run. cbn [ask].
  intros (base & text & old & Hv & ->)%processFrontMatter_Ok.
  unfold metadataAt. cbn [vault]. rewrite lookup_insert_eq, Hv.
  unfold Frontmatter.assignUpdates.
  split; [apply lookup_insert_eq|]. split; [|split].
  - intros k v Hk Hu. rewrite lookup_insert_ne by done.
    by apply lookup_union_Some_l.
  - intros k Hk Hu. rewrite lookup_insert_ne by done.
    rewrite lookup_union_r by done. by destruct old.
  - intros p Hp. by rewrite lookup_insert_ne.
Qed.

(** X8: the metadata of a loaded card, field by field: a field of the
    frontmatter keeps its value, whatever it is (a [tags] field that is
    present but empty or [null] is not replaced by the empty list); a
    field the frontmatter lacks is [undefined] for the five named scalar
    fields, the empty list for [tags], and absent otherwise. *)
Theorem X8_card_metadata_fields fm k :
  FrontmatterHelper.cardMetadata fm !! k
  = match fm !! k with
    | Some v => Some v
    | None => namedDefault k
    end.
Proof.
  unfold FrontmatterHelper.cardMetadata.
  destruct (fm !! k) as [v|] eqn:Hk; [by apply lookup_union_Some_l|].
  rewrite lookup_union_r by done. unfold namedDefault.
  destruct (decide (k = "status")) as [->|?];
    [by rewrite lookup_insert_eq, (field_None _ _ Hk)|].
  rewrite lookup_insert_ne by done.
  destruct (decide (k = "priority")) as [->|?];
    [by rewrite lookup_insert_eq, (field_None _ _ Hk)|].
  rewrite lookup_insert_ne by done.
  destruct (decide (k = "due")) as [->|?];
    [by rewrite lookup_insert_eq, (field_None _ _ Hk)|].
  rewrite lookup_insert_ne by done.
  destruct (decide (k = "assignee")) as [->|?];
    [by rewrite lookup_insert_eq, (field_None _ _ Hk)|].
  rewrite lookup_insert_ne by done.
  destruct (decide (k = "board")) as [->|?];
    [by rewrite lookup_insert_eq, (field_None _ _ Hk)|].
  rewrite lookup_insert_ne by done.
  rewrite bool_decide_false.
  2:{ rewrite !elem_of_cons, elem_of_nil. tauto. }
  destruct (decide (k = "tags")) as [->|?].
  - by rewrite lookup_insert_eq, (field_None _ _ Hk).
  - rewrite lookup_insert_ne by done. by rewrite bool_decide_false.
Qed.

(** X9: after a move that succeeds, a second move of the same document
    succeeds too, and the metadata it leaves is that of a single move to
    the second status: the first status and its time stamp leave no trace,
    and the other fields are those of the start. *)
Theorem X9_second_move_overwrites_first f s1 s2 w w1 :
  CardManager.updateStatus f s1 w = (Ok tt, w1) →
  ∃ w2,
    CardManager.updateStatus f s2 w1 = (Ok tt, w2)
    ∧ metadataAt w2 (path f)
      = FrontmatterHelper.setStatus s2 (clock w1) (metadataAt w (path f)).
Proof.
  rewrite updateStatus_run.
  intros (base & text & old & Hv & ->)%processFrontMatter_Ok.
  rewrite updateStatus_run. unfold processFrontMatter at 1. cbn [vault].
  rewrite lookup_insert_eq. eexists. split; [reflexivity|].
  unfold metadataAt. cbn [vault clock]. rewrite lookup_insert_eq, Hv.
  cbn [default]. unfold FrontmatterHelper.setStatus.
  assert (default ∅ old = match old with Some fm => fm | None => ∅ end) as ->
    by by destruct old.
  set (m := match old with Some fm => fm | None => ∅ end).
  unfold id. apply map_eq. intros k.
  destruct (decide (k = "last-updated")) as [->|Hl];
    [by rewrite !lookup_insert_eq|].
  destruct (decide (k = "status")) as [->|Hs].
  - rewrite !(lookup_insert_ne _ "last-updated" "status") by done.
    by rewrite !lookup_insert_eq.
  - by repeat (rewrite lookup_insert_ne by done).
Qed.

End metadata_more.

Lemma X7_metadata_update_frame_witness :
  ∃ w',
    @Frontmatter.updateCardMetadata Sample.plainText (mkTFile "a.md" "a")
      {[ "priority" := Str "low"; "last-updated" := Str "never" ]}
      SampleWorld.world = (Ok tt, w')
    ∧ metadataAt w' "a.md" !! "priority" = Some (Str "low")
    ∧ metadataAt w' "a.md" !! "status" = Some (Str "todo")
    ∧ metadataAt w' "a.md" !! "last-updated"
      = Some (Str "2026-01-01T00:00:00.000Z").
Proof.
  destruct (@Frontmatter.updateCardMetadata Sample.plainText
              (mkTFile "a.md" "a")
              {[ "priority" := Str "low"; "last-updated" := Str "never" ]}
              SampleWorld.world) as [[[]|e] w'] eqn:Hrun;
    [|vm_compute in Hrun; discriminate Hrun].
  exists w'. split; [reflexivity|].
  destruct (@X7_metadata_update_frame Sample.plainText _ _ _ _ Hrun)
    as (Hstamp & Hnew & Hold & _).
  change "a.md" with (path (mkTFile "a.md" "a")).
  split; [by apply Hnew|]. split; [|exact Hstamp].
  rewrite Hold by done. vm_compute. reflexivity.
Defined.

Lemma X9_second_move_overwrites_first_witness :
  ∃ w1 w2,
    @CardManager.updateStatus Sample.plainText (mkTFile "a.md" "a") "doing"
      SampleWorld.world = (Ok tt, w1)
    ∧ @CardManager.updateStatus Sample.plainText (mkTFile "a.md" "a") "done"
        w1 = (Ok tt, w2)
    ∧ metadataAt w2 "a.md" !! "status" = Some (Str "done")
    ∧ metadataAt w2 "a.md" !! "priority" = Some (Str "high").
Proof.
  destruct (@CardManager.updateStatus Sample.plainText (mkTFile "a.md" "a")
              "doing" SampleWorld.world) as [[[]|e] w1] eqn:Hrun;
    [|vm_compute in Hrun; discriminate Hrun].
  destruct (@X9_second_move_overwrites_first Sample.plainText _ _ "done" _ _
              Hrun) as (w2 & Hrun2 & Hmeta).
  exists w1, w2. split; [reflexivity|]. split; [exact Hrun2|].
  change "a.md" with (path (mkTFile "a.md" "a")). rewrite Hmeta.
  split; [apply setStatus_status|].
  rewrite setStatus_other by done. vm_compute. reflexivity.
Defined.

(* ===================================================================== *)
(** ** Further properties: the result of a query *)
(* ===================================================================== *)

Section query_more.

Context `{TextOps}.
Implicit Types (w : World) (v : BoardView.View) (items : list Val).

Lemma depth_field (o : Object) k x : o !! k = Some x → depth x < depth (Obj o).
Proof.
  intros Hk. cbn [depth].
  rewrite (map_fold_delete_L _ _ k x o); [lia | | done].
  intros. lia.
Qed.

Lemma filter_truthy_Forall (l : list Val) :
  Forall (λ x, truthy x = true) (List.filter truthy l).
Proof.
  apply Forall_forall. intros x Hx. apply list_elem_of_In in Hx.
  by apply filter_In in Hx as [_ ?].
Qed.

(** X10: whatever the engine returned, and however deeply it is wrapped in
    [values] objects, a result that [parsePageResults] returns holds truthy
    values only: no empty string, [null] or [undefined] reaches the lookup
    of files. *)
Theorem X10_page_results_are_truthy (result : Val) (l : list Val) :
  DataviewHelper.parsePageResults result = Ok l →
  Forall (λ x, truthy x = true) l.
Proof.
  remember (depth result) as n eqn:Hn.
  revert result l Hn. induction (lt_wf n) as [n _ IH]. intros result l Hn.
  destruct result as [| |b|z| |s|items|o].
  - intros [= <-]. constructor.
  - intros [= <-]. constructor.
  - destruct b; intros [= <-]; constructor.
  - simpl. destruct (negb (z =? 0)%Z); intros [= <-]; constructor.
  - intros [= <-]. constructor.
  - simpl. destruct (negb (String.eqb s "")); intros [= <-]; constructor.
  - rewrite parsePageResults_Arr.
    destruct (mapM DataviewHelper.pageItem items) as [k|e]; [|done].
    intros [= <-]. apply filter_truthy_Forall.
  - rewrite parsePageResults_Obj.
    destruct (truthy (field o "values")) eqn:Hv; [|intros [= <-]; constructor].
    unfold field in *. destruct (o !! "values") as [x|] eqn:Hx; [|done].
    cbn [default from_option id] in *. intros Hp.
    eapply (IH (depth x)); [|reflexivity|exact Hp].
    subst n. by eapply depth_field.
Qed.

Lemma mapM_Throw {A B} (f : A → Res B) (l : list A) :
  (∃ e, mapM f l = Throw e) ↔ ∃ x, x ∈ l ∧ ∃ e, f x = Throw e.
Proof.
  induction l as [|x l IH]; cbn [mapM].
  - split; [by intros [e ?]|]. intros (x & Hx & _). by apply elem_of_nil in Hx.
  - destruct (f x) as [y|e] eqn:Hf.
    + rewrite bind_Ok. destruct (mapM f l) as [k|e] eqn:Hm.
      * split; [by intros [e ?]|].
        intros (x' & [->|Hx']%elem_of_cons & e & He); [congruence|].
        destruct (proj2 IH) as [e' He']; [by eauto | done].
      * split; [|by eauto]. intros _.
        destruct (proj1 IH) as (x' & Hx' & He'); [by eauto|].
        exists x'. split; [by apply list_elem_of_further | done].
    + split; [|by eauto]. intros _. exists x.
      split; [apply list_elem_of_here | by eauto].
Qed.

Lemma pageItem_Throw item :
  (∃ e, DataviewHelper.pageItem item = Throw e) ↔ nullish item = true.
Proof.
  destruct (nullish item) eqn:Hn.
  - split; [done|]. intros _. destruct item; try done; by eexists.
  - rewrite pageItem_itemPath by done. split; [by intros [e ?] | done].
Qed.

(** X11: on an array, [parsePageResults] throws exactly when an element is
    [null] or [undefined]; on any other array it returns. *)
Theorem X11_array_throws_iff_empty_element items :
  (∃ e, DataviewHelper.parsePageResults (Arr items) = Throw e)
  ↔ ∃ item, item ∈ items ∧ nullish item = true.
Proof.
  rewrite parsePageResults_Arr.
  transitivity (∃ e, mapM DataviewHelper.pageItem items = Throw e).
  - destruct (mapM DataviewHelper.pageItem items) as [k|e];
      split; intros [e' He']; try done; by eauto.
  - rewrite mapM_Throw. split.
    + intros (x & Hx & He). exists x. split; [done|]. by apply pageItem_Throw.
    + intros (x & Hx & Hn). exists x. split; [done|]. by apply pageItem_Throw.
Qed.

(** X12: on a flat list of strings, the result is the list of the strings
    that are not empty, in order: an empty string is dropped. *)
Theorem X12_empty_strings_are_dropped (ids : list string) :
  DataviewHelper.parsePageResults (Arr (Str <$> ids))
  = Ok (Str <$> List.filter (λ s, negb (String.eqb s "")) ids).
Proof.
  rewrite parsePageResults_elements.
  - f_equal. induction ids as [|s ids IH]; [done|].
    rewrite !fmap_cons. change (itemPath (Str s)) with (Str s).
    cbn [List.filter]. change (truthy (Str s)) with (negb (String.eqb s "")).
    destruct (negb (String.eqb s "")); [rewrite fmap_cons|]; by rewrite IH.
  - intros item (s & -> & _)%list_elem_of_fmap. done.
Qed.

Lemma loaded_cardAt w w' (ids : list string) :
  vault w' = vault w →
  omap (loaded w') (QueryExecutor.getFilesFromPaths w' (Str <$> ids))
  = omap (cardAt w) ids.
Proof.
  intros Hv. induction ids as [|p ids IH]; [done|].
  rewrite fmap_cons. unfold QueryExecutor.getFilesFromPaths in *.
  cbn [omap list_omap toString]. unfold getAbstractFileByPath at 1.
  unfold cardAt at 1. rewrite Hv.
  destruct (vault w !! p) as [[|base text fm]|] eqn:Hp; cbn [omap list_omap].
  - exact IH.
  - unfold loaded at 1. cbn [path]. rewrite Hv, Hp.
    destruct fm as [fm|]; by rewrite IH.
  - exact IH.
Qed.

(** The helper hands over the three fields of the object the engine
    returns. *)
Lemma executeQuery_object w api query sourcePath (o : Object) :
  dataview w = Some api →
  api (vault w) query sourcePath = Returns (Obj o) →
  DataviewHelper.executeQuery query sourcePath w
  = (Ok {| successful := field o "successful"; value := field o "value";
           error := field o "error" |},
     withQuery w query sourcePath).
Proof.
  intros Hapi Hret. unfold DataviewHelper.executeQuery.
  rewrite m_bind_run. cbn [ask]. rewrite Hapi, try_catch_run, m_bind_run.
  unfold engine_query. cbv beta. rewrite Hret. reflexivity.
Qed.

(** X13: when the engine returns a successful result whose value is a list
    of non-empty path strings, [QueryExecutor.executeQuery] returns, in the
    order of the list, the card of every path that is a document with
    frontmatter, and skips the paths that are missing, are folders or have
    no frontmatter; the world only gains the record of the call. *)
Theorem X13_successful_query_loads_cards w api query sourcePath o ids :
  dataview w = Some api →
  api (vault w) query sourcePath = Returns (Obj o) →
  truthy (field o "successful") = true →
  field o "value" = Arr (Str <$> ids) →
  (∀ s, s ∈ ids → s ≠ "") →
  QueryExecutor.executeQuery query sourcePath w
  = (Ok (omap (cardAt w) ids), withQuery w query sourcePath).
Proof.
  intros Hapi Hret Hs Hval Hne. unfold QueryExecutor.executeQuery.
  rewrite m_bind_run, (executeQuery_object _ _ _ _ _ Hapi Hret).
  cbn [successful value]. rewrite Hs. cbn [negb].
  rewrite m_bind_run, lift_run, Hval, parsePageResults_strings by done.
  rewrite m_bind_run. cbn [ask]. rewrite loadCards_loaded.
  by rewrite (loaded_cardAt w).
Qed.

(** X14: without the Dataview engine, [executeQuery] returns the failure
    "Dataview plugin is not installed or enabled" in an unchanged world, and
    loading the cards of a board whose document can be read gives no card
    and one empty column per declared column, with that reason on the
    console and no call recorded. *)
Theorem X14_engine_unavailable v w content :
  dataview w = None →
  vault_read (BoardView.boardFile v) w = (Ok content, w) →
  (∀ query sourcePath,
     DataviewHelper.executeQuery query sourcePath w
     = (Ok {| successful := Bool false; value := Undefined;
              error := Str "Dataview plugin is not installed or enabled" |},
        w))
  ∧ BoardView.loadCards v w
    = (Ok (BoardView.with_columns (BoardView.with_cards v [])
             (emptyColumns (BoardView.view_config v))),
       withLog w "Query execution failed:"
         (LogVal (Str "Dataview plugin is not installed or enabled"))).
Proof.
  intros Hnone Hread.
  assert (∀ query sourcePath,
     DataviewHelper.executeQuery query sourcePath w
     = (Ok {| successful := Bool false; value := Undefined;
              error := Str "Dataview plugin is not installed or enabled" |},
        w)) as Hq.
  { intros. unfold DataviewHelper.executeQuery. rewrite m_bind_run.
    cbn [ask]. by rewrite Hnone. }
  split; [exact Hq|].
  unfold BoardView.loadCards. rewrite m_bind_run, Hread, m_bind_run.
  unfold QueryExecutor.executeQuery. rewrite m_bind_run, Hq. reflexivity.
Qed.

End query_more.

Lemma X10_page_results_are_truthy_witness :
  DataviewHelper.parsePageResults
    (Obj {[ "values" := Obj {[ "values" :=
       Arr [Str "a.md"; Str ""; Num 0; Obj {[ "path" := Str "b.md" ]}] ]} ]})
  = Ok [Str "a.md"; Str "b.md"]
  ∧ Forall (λ x, truthy x = true) [Str "a.md"; Str "b.md"].
Proof.
  assert (DataviewHelper.parsePageResults
    (Obj {[ "values" := Obj {[ "values" :=
       Arr [Str "a.md"; Str ""; Num 0; Obj {[ "path" := Str "b.md" ]}] ]} ]})
  = Ok [Str "a.md"; Str "b.md"]) as Hrun by (vm_compute; reflexivity).
  split; [exact Hrun|]. exact (X10_page_results_are_truthy _ _ Hrun).
Defined.

Lemma X13_successful_query_loads_cards_witness :
  dataview SampleWorld.world = Some SampleWorld.selectAll
  ∧ @QueryExecutor.executeQuery Sample.plainText "dv.pages()" "board.md"
      SampleWorld.world
    = (Ok (omap (@cardAt Sample.plainText SampleWorld.world)
             ["a.md"; "b.md"; "c.md"]),
       withQuery SampleWorld.world "dv.pages()" "board.md").
Proof.
  split; [reflexivity|].
  apply (@X13_successful_query_loads_cards Sample.plainText SampleWorld.world
           SampleWorld.selectAll "dv.pages()" "board.md"
           {[ "successful" := Bool true;
              "value" := Arr [Str "a.md"; Str "b.md"; Str "c.md"] ]}).
  - reflexivity.
  - reflexivity.
  - reflexivity.
  - reflexivity.
  - intros s Hs. repeat (apply elem_of_cons in Hs as [->|Hs]; [done|]).
    by apply elem_of_nil in Hs.
Defined.

Lemma X14_engine_unavailable_witness :
  dataview Fixture.world = None
  ∧ vault_read (mkTFile "empty.md" "empty") Fixture.world
    = (Ok "", Fixture.world)
  ∧ DataviewHelper.executeQuery "dv.pages()" "empty.md" Fixture.world
    = (Ok {| successful := Bool false; value := Undefined;
             error := Str "Dataview plugin is not installed or enabled" |},
       Fixture.world).
Proof.
  split; [reflexivity|]. split; [reflexivity|].
  exact (proj1 (@X14_engine_unavailable Sample.plainText
                  (BoardView.mkView (mkTFile "empty.md" "empty")
                     Sample.threeColumns [] [] BoardView.Blank)
                  Fixture.world "" eq_refl eq_refl) "dv.pages()" "empty.md").
Defined.

(* ===================================================================== *)
(** ** Further properties: rendering and dropping *)
(* ===================================================================== *)

Section render_more.

Context `{TextOps}.
Implicit Types (w : World) (v : BoardView.View) (cfg : BoardConfig).

Lemma sameDocuments_refl w : sameDocuments w w.
Proof. by repeat split. Qed.

Lemma sameDocuments_trans w1 w2 w3 :
  sameDocuments w1 w2 → sameDocuments w2 w3 → sameDocuments w1 w3.
Proof.
  intros (Hv & Hd & Hc & Hl & Hq) (Hv' & Hd' & Hc' & Hl' & Hq').
  repeat split; try congruence; by etrans.
Qed.

Lemma readOnly_bind {A B} (m : M A) (k : A → M B) :
  readOnly m → (∀ a, readOnly (k a)) → readOnly (m ≫= k).
Proof.
  intros Hm Hk w. rewrite m_bind_run. specialize (Hm w).
  destruct (m w) as [[a|e] w1]; [|exact Hm].
  eapply sameDocuments_trans; [exact Hm | apply Hk].
Qed.

Lemma readOnly_ret {A} (a : A) : readOnly (mret a : M A).
Proof. intros w. apply sameDocuments_refl. Qed.

Lemma readOnly_lift {A} (r : Res A) : readOnly (lift r).
Proof. intros w. apply sameDocuments_refl. Qed.

Lemma readOnly_try_catch {A} (body : M A) handler :
  readOnly body → (∀ e, readOnly (handler e)) → readOnly (try_catch body handler).
Proof.
  intros Hb Hh w. rewrite try_catch_run. specialize (Hb w).
  destruct (body w) as [[a|e] w1]; [exact Hb|].
  eapply sameDocuments_trans; [exact Hb | apply Hh].
Qed.

Lemma readOnly_console_error label detail :
  readOnly (console_error label detail).
Proof.
  intros w. repeat split; cbn; try done. by apply prefix_app_r.
Qed.

Lemma readOnly_vault_read f : readOnly (vault_read f).
Proof.
  intros w. unfold vault_read.
  destruct (vault w !! path f) as [[|? ? ?]|]; apply sameDocuments_refl.
Qed.

Lemma readOnly_engine_query api query sourcePath :
  readOnly (engine_query api query sourcePath).
Proof.
  intros w. unfold engine_query.
  destruct (api (vault w) query sourcePath); repeat split; cbn; try done;
    by apply prefix_app_r.
Qed.

Lemma readOnly_executeQuery query sourcePath :
  readOnly (DataviewHelper.executeQuery query sourcePath).
Proof.
  intros w. unfold DataviewHelper.executeQuery. rewrite m_bind_run. cbn [ask].
  destruct (dataview w) as [api|]; [|apply sameDocuments_refl].
  apply readOnly_try_catch; [|intros; apply readOnly_ret].
  apply readOnly_bind; [apply readOnly_engine_query|]. intros r.
  repeat (apply readOnly_bind; [apply readOnly_lift|]; intros ?).
  apply readOnly_ret.
Qed.

Lemma readOnly_loadCards files : readOnly (CardManager.loadCards files).
Proof. intros w. rewrite loadCards_loaded. apply sameDocuments_refl. Qed.

Lemma readOnly_QueryExecutor query sourcePath :
  readOnly (QueryExecutor.executeQuery query sourcePath).
Proof.
  unfold QueryExecutor.executeQuery.
  apply readOnly_bind; [apply readOnly_executeQuery|]. intros r.
  destruct (negb (truthy (successful r))).
  - apply readOnly_bind; [apply readOnly_console_error|].
    intros; apply readOnly_ret.
  - apply readOnly_bind; [apply readOnly_lift|]. intros paths.
    intros w. rewrite m_bind_run. cbn [ask]. apply readOnly_loadCards.
Qed.

Lemma readOnly_BoardView_loadCards v : readOnly (BoardView.loadCards v).
Proof.
  unfold BoardView.loadCards.
  apply readOnly_bind; [apply readOnly_vault_read|]. intros content.
  apply readOnly_bind; [apply readOnly_QueryExecutor|].
  intros; apply readOnly_ret.
Qed.

Lemma readOnly_showError v e : readOnly (BoardView.showError v e).
Proof.
  unfold BoardView.showError.
  apply readOnly_bind; [apply readOnly_console_error|].
  intros; apply readOnly_ret.
Qed.

Lemma readOnly_render v : readOnly (BoardView.render v).
Proof.
  unfold BoardView.render.
  apply readOnly_bind; [apply readOnly_lift|]. intros r.
  destruct (negb (Validator.valid r)); [apply readOnly_ret|].
  apply readOnly_try_catch; [|intros e; apply readOnly_showError].
  apply readOnly_bind; [apply readOnly_BoardView_loadCards|]. intros v'.
  apply readOnly_try_catch; [|intros e; apply readOnly_showError].
  apply readOnly_bind; [apply readOnly_lift|].
  intros; apply readOnly_ret.
Qed.

(** X15: rendering a board never writes: for every view and every world,
    the world after [render] has the same vault (every document, its text
    and its frontmatter), the same engine and the same clock; the console
    and the record of engine calls are only extended. *)
Theorem X15_render_never_writes v w :
  vault (BoardView.render v w).2 = vault w
  ∧ dataview (BoardView.render v w).2 = dataview w
  ∧ clock (BoardView.render v w).2 = clock w
  ∧ console w `prefix_of` console (BoardView.render v w).2
  ∧ queries w `prefix_of` queries (BoardView.render v w).2.
Proof. exact (readOnly_render v w). Qed.

Lemma QueryExecutor_normalization_fault w api query sourcePath (o : Object) e :
  dataview w = Some api →
  api (vault w) query sourcePath = Returns (Obj o) →
  truthy (field o "successful") = true →
  DataviewHelper.parsePageResults (field o "value") = Throw e →
  QueryExecutor.executeQuery query sourcePath w
  = (Throw e, withQuery w query sourcePath).
Proof.
  intros Hapi Hret Hs Hthrow. unfold QueryExecutor.executeQuery.
  rewrite m_bind_run, (executeQuery_object _ _ _ _ _ Hapi Hret).
  cbn [successful value]. rewrite Hs. cbn [negb].
  rewrite m_bind_run, lift_run, Hthrow. reflexivity.
Qed.

(** X16: a fault while the cards are loaded does not escape [render].  When
    the engine's successful result makes [parsePageResults] throw (an empty
    element, for one), rendering a valid board returns normally, shows
    "Error: " followed by the message, writes the fault to the console, and
    leaves the view's cards and columns as they were. *)
Theorem X16_normalization_fault_is_shown v w api content (o : Object) e :
  isValid (BoardView.view_config v) = true →
  vault_read (BoardView.boardFile v) w = (Ok content, w) →
  dataview w = Some api →
  api (vault w) (BoardView.boardQuery (BoardView.view_config v) content)
    (path (BoardView.boardFile v)) = Returns (Obj o) →
  truthy (field o "successful") = true →
  DataviewHelper.parsePageResults (field o "value") = Throw e →
  BoardView.render v w
  = (Ok (BoardView.with_container v
           (BoardView.ErrorText ("Error: " +:+ errorMessage e))),
     withLog (withQuery w
                (BoardView.boardQuery (BoardView.view_config v) content)
                (path (BoardView.boardFile v)))
       "Board render error:" (LogThrown e)).
Proof.
  intros Hvalid Hread Hapi Hret Hs Hthrow.
  rewrite render_valid by done. unfold BoardView.loadCards.
  rewrite m_bind_run. cbn [BoardView.boardFile BoardView.with_container].
  rewrite Hread, m_bind_run.
  change (BoardView.view_config (BoardView.with_container v BoardView.Loading))
    with (BoardView.view_config v).
  rewrite (QueryExecutor_normalization_fault _ _ _ _ _ _ Hapi Hret Hs Hthrow).
  reflexivity.
Qed.

(** X17: a drop does nothing at all, neither writing nor rendering, when
    the column has no status, when the dragged element has no path, or when
    the path is not that of a document (a missing path or a folder). *)
Theorem X17_drop_without_target_is_noop v targetStatus cardPath w :
  targetStatus = "" ∨ cardPath = ""
  ∨ (∀ f, getAbstractFileByPath w cardPath ≠ Some (AFile f)) →
  BoardView.drop v targetStatus cardPath w = (Ok v, w).
Proof.
  intros Hcase. unfold BoardView.drop.
  destruct (String.eqb_spec targetStatus ""); [done|].
  destruct (String.eqb_spec cardPath ""); [done|]. cbn [orb].
  destruct Hcase as [?|[?|Hnone]]; [done|done|].
  rewrite m_bind_run. cbn [ask].
  destruct (getAbstractFileByPath w cardPath) as [[|f]|]; try done.
  by destruct (Hnone f).
Qed.

Lemma updateStatus_effect f newStatus w w' :
  CardManager.updateStatus f newStatus w = (Ok tt, w') →
  metadataAt w' (path f) !! "status" = Some (Str newStatus)
  ∧ (∀ k, k ≠ "status" → k ≠ "last-updated" →
          metadataAt w' (path f) !! k = metadataAt w (path f) !! k)
  ∧ (∀ p, p ≠ path f → vault w' !! p = vault w !! p).
Proof.
  rewrite updateStatus_run.
  intros (base & text & old & Hv & ->)%processFrontMatter_Ok.
  unfold metadataAt. cbn [vault]. rewrite lookup_insert_eq, Hv.
  split; [apply setStatus_status|]. split.
  - intros k Hs Hl. rewrite setStatus_other by done. by destruct old.
  - intros p Hp. by rewrite lookup_insert_ne.
Qed.

(** X18: a drop with a status on an existing document always goes through:
    whatever the board's configuration (valid or not, with or without WIP
    limits) and whatever the cards it shows, the drop returns, the document
    then has the dropped status, and no other entry of the vault has
    changed. *)
Theorem X18_drop_always_writes v targetStatus cardPath w base text old :
  targetStatus ≠ "" →
  cardPath ≠ "" →
  vault w !! cardPath = Some (Document base text old) →
  ∃ v' w',
    BoardView.drop v targetStatus cardPath w = (Ok v', w')
    ∧ metadataAt w' cardPath !! "status" = Some (Str targetStatus)
    ∧ (∀ k, k ≠ "status" → k ≠ "last-updated" →
            metadataAt w' cardPath !! k = metadataAt w cardPath !! k)
    ∧ (∀ p, p ≠ cardPath → vault w' !! p = vault w !! p).
Proof.
  intros Hs Hp Hv.
  assert (getAbstractFileByPath w cardPath
          = Some (AFile (mkTFile cardPath base))) as Hf
    by (unfold getAbstractFileByPath; by rewrite Hv).
  destruct (CardManager.updateStatus (mkTFile cardPath base) targetStatus w)
    as [[[]|e] w1] eqn:Hmove.
  2:{ rewrite updateStatus_run in Hmove. unfold processFrontMatter in Hmove.
      cbn [path] in Hmove. by rewrite Hv in Hmove. }
  rewrite (drop_run v cardPath _ w w1 targetStatus) by done.
  destruct (render_returns v w1) as (v' & w' & Hrender).
  pose proof (readOnly_render v w1) as (Hvault & _). rewrite Hrender in Hvault.
  cbn [snd] in Hvault.
  destruct (updateStatus_effect _ _ _ _ Hmove) as (Hst & Hother & Hrest).
  exists v', w'. split; [exact Hrender|].
  unfold metadataAt in *. rewrite Hvault. cbn [path] in *.
  split; [exact Hst|]. split; [exact Hother|].
  intros p Hne. by apply Hrest.
Qed.

End render_more.

Lemma X16_normalization_fault_is_shown_witness :
  isValid Sample.threeColumns = true
  ∧ DataviewHelper.parsePageResults (Arr [Str "a.md"; Null])
    = Throw (TypeError "Cannot read properties of null (reading 'file')")
  ∧ ∃ w',
      @BoardView.render Sample.plainText (SampleWorld.view Sample.threeColumns)
        Fixture.nullElementWorld
      = (Ok (BoardView.with_container (SampleWorld.view Sample.threeColumns)
               (BoardView.ErrorText
                  "Error: Cannot read properties of null (reading 'file')")),
         w').
Proof.
  split; [vm_compute; reflexivity|]. split; [vm_compute; reflexivity|].
  eexists.
  apply (@X16_normalization_fault_is_shown Sample.plainText
           (SampleWorld.view Sample.threeColumns) Fixture.nullElementWorld
           Fixture.nullElement ""
           {[ "successful" := Bool true; "value" := Arr [Str "a.md"; Null] ]}
           (TypeError "Cannot read properties of null (reading 'file')"));
    vm_compute; reflexivity.
Defined.

Lemma X17_drop_without_target_is_noop_witness :
  getAbstractFileByPath Fixture.world "Cards" = Some AFolder
  ∧ @BoardView.drop Sample.plainText (SampleWorld.view Sample.threeColumns)
      "done" "Cards" Fixture.world
    = (Ok (SampleWorld.view Sample.threeColumns), Fixture.world).
Proof.
  split; [reflexivity|].
  apply (@X17_drop_without_target_is_noop Sample.plainText).
  right. right. intros f. discriminate.
Defined.

Lemma X18_drop_always_writes_witness :
  isValid (Sample.board []) = false
  ∧ vault SampleWorld.world !! "a.md"
    = Some (Document "a" ""
              (Some {[ "status" := Str "todo"; "priority" := Str "high" ]}))
  ∧ ∃ v' w',
      @BoardView.drop Sample.plainText (SampleWorld.view (Sample.board []))
        "done" "a.md" SampleWorld.world = (Ok v', w')
      ∧ metadataAt w' "a.md" !! "status" = Some (Str "done").
Proof.
  split; [vm_compute; reflexivity|]. split; [reflexivity|].
  destruct (@X18_drop_always_writes Sample.plainText
              (SampleWorld.view (Sample.board [])) "done" "a.md"
              SampleWorld.world "a" ""
              (Some {[ "status" := Str "todo"; "priority" := Str "high" ]}))
    as (v' & w' & Hdrop & Hst & _); [done | done | reflexivity |].
  exists v', w'. split; [exact Hdrop | exact Hst].
Defined.

(* ===================================================================== *)
(** ** Further properties: the columns *)
(* ===================================================================== *)

Section columns_more.

Implicit Types (cfg : BoardConfig) (cs : list CardData) (card : CardData).

Lemma strict_eq_truthy a b : strict_eq a b = true → truthy a = truthy b.
Proof.
  destruct a, b; simpl; try done.
  - by intros ->%bool_decide_eq_true.
  - by intros ->%Z.eqb_eq.
  - by intros ->%String.eqb_eq.
Qed.

(** X19: on a valid board, a card whose status is missing, empty or
    otherwise falsy is in no column. *)
Theorem X19_card_without_status_is_unassigned cfg cs card :
  isValid cfg = true →
  truthy (field (metadata card) "status") = false →
  ∀ col, col ∈ BoardView.group cfg cs → card ∉ cards col.
Proof.
  intros Hvalid Hfalsy col (cc & -> & Hcc)%list_elem_of_fmap. cbn [cards].
  intros [_ Hmatch]%elem_of_filter_bool.
  apply strict_eq_truthy in Hmatch. rewrite Hfalsy in Hmatch.
  rewrite isValid_spec in Hvalid. apply bool_decide_eq_true in Hvalid.
  unfold configErrors in Hvalid. apply app_eq_nil in Hvalid as [_ Hcols].
  destruct (proj1 (columnErrors_nil _ _) Hcols cc Hcc) as [_ Hst]. congruence.
Qed.

Lemma filter_sublist {A} (p : A → bool) (l : list A) :
  List.filter p l `sublist_of` l.
Proof.
  induction l as [|x l IH]; cbn [List.filter]; [constructor|].
  destruct (p x); by constructor.
Qed.

(** X20: inside every column the cards come in the order in which they
    were loaded: the cards of a column are a sublist of the loaded cards. *)
Theorem X20_columns_keep_load_order cfg cs :
  Forall (λ col, cards col `sublist_of` cs) (BoardView.group cfg cs).
Proof.
  apply Forall_forall. intros col (cc & -> & _)%list_elem_of_fmap.
  apply filter_sublist.
Qed.

End columns_more.

Lemma X19_card_without_status_is_unassigned_witness :
  isValid Sample.threeColumns = true
  ∧ truthy (field (FrontmatterHelper.cardMetadata {[ "title" := Str "x" ]})
              "status") = false
  ∧ ∀ col,
      col ∈ BoardView.group Sample.threeColumns
              [mkCardData (mkCardFile (mkTFile "n.md" "n") "n.md" "n")
                 (FrontmatterHelper.cardMetadata {[ "title" := Str "x" ]})
                 "n" ""] →
      mkCardData (mkCardFile (mkTFile "n.md" "n") "n.md" "n")
        (FrontmatterHelper.cardMetadata {[ "title" := Str "x" ]}) "n" ""
      ∉ cards col.
Proof.
  assert (isValid Sample.threeColumns = true) as Hv by (vm_compute; reflexivity).
  assert (truthy (field (FrontmatterHelper.cardMetadata {[ "title" := Str "x" ]})
                    "status") = false) as Hf by (vm_compute; reflexivity).
  split; [exact Hv|]. split; [exact Hf|].
  exact (X19_card_without_status_is_unassigned Sample.threeColumns _
           (mkCardData (mkCardFile (mkTFile "n.md" "n") "n.md" "n")
              (FrontmatterHelper.cardMetadata {[ "title" := Str "x" ]}) "n" "")
           Hv Hf).
Defined.

(* ===================================================================== *)
(** ** Further properties: folders and file names *)
(* ===================================================================== *)

Section folders.

Implicit Types (w : World) (folders : list string) (current p : string).

Lemma getAbstractFileByPath_None w p :
  getAbstractFileByPath w p = None ↔ vault w !! p = None.
Proof.
  unfold getAbstractFileByPath. by destruct (vault w !! p) as [[|? ? ?]|].
Qed.

Lemma ensureFolders_cons folder folders current w :
  BoardCommands.ensureFolders (folder :: folders) current w
  = match vault w !! BoardCommands.extend current folder with
    | Some _ =>
        BoardCommands.ensureFolders folders
          (BoardCommands.extend current folder) w
    | None =>
        BoardCommands.ensureFolders folders
          (BoardCommands.extend current folder)
          (mkWorld (<[BoardCommands.extend current folder := Folder]> (vault w))
             (dataview w) (clock w) (console w) (queries w))
    end.
Proof.
  cbn [BoardCommands.ensureFolders]. rewrite m_bind_run. cbn [ask].
  unfold getAbstractFileByPath, createFolder.
  destruct (vault w !! BoardCommands.extend current folder) as [[|? ? ?]|]
    eqn:Hc; rewrite m_bind_run; cbv beta; rewrite ?Hc; reflexivity.
Qed.

Lemma ensureFolders_effect folders current w :
  ∃ w',
    BoardCommands.ensureFolders folders current w = (Ok tt, w')
    ∧ (dataview w' = dataview w ∧ clock w' = clock w
       ∧ console w' = console w ∧ queries w' = queries w)
    ∧ (∀ p e, vault w !! p = Some e → vault w' !! p = Some e)
    ∧ (∀ p, vault w !! p = None →
            vault w' !! p = None ∨ vault w' !! p = Some Folder)
    ∧ (∀ p, p ∈ currents folders current → is_Some (vault w' !! p)).
Proof.
  revert current w. induction folders as [|folder folders IH]; intros current w.
  - exists w. split; [reflexivity|]. repeat split; auto.
    intros p Hp. by apply elem_of_nil in Hp.
  - rewrite ensureFolders_cons. cbn [currents].
    set (c := BoardCommands.extend current folder).
    destruct (vault w !! c) as [e0|] eqn:Hc.
    + destruct (IH c w) as (w' & Hrun & Hsame & Hkeep & Hnew & Hcur).
      exists w'. split; [exact Hrun|]. repeat split; try apply Hsame; auto.
      intros p [->|Hp]%elem_of_cons; [|by apply Hcur].
      rewrite (Hkeep _ _ Hc). by eexists.
    + destruct (IH c (mkWorld (<[c := Folder]> (vault w)) (dataview w)
                        (clock w) (console w) (queries w)))
        as (w' & Hrun & Hsame & Hkeep & Hnew & Hcur). cbn in Hsame, Hkeep, Hnew.
      exists w'. split; [exact Hrun|]. repeat split; try apply Hsame.
      * intros p e Hp. apply Hkeep. rewrite lookup_insert_ne; [done|].
        intros <-. congruence.
      * intros p Hp. destruct (decide (c = p)) as [<-|Hne].
        -- right. apply Hkeep. apply lookup_insert_eq.
        -- apply Hnew. by rewrite lookup_insert_ne.
      * intros p [->|Hp]%elem_of_cons; [|by apply Hcur].
        rewrite (Hkeep c Folder); [by eexists|]. apply lookup_insert_eq.
Qed.

Lemma ensureFolders_present folders current w :
  (∀ p, p ∈ currents folders current → is_Some (vault w !! p)) →
  BoardCommands.ensureFolders folders current w = (Ok tt, w).
Proof.
  revert current. induction folders as [|folder folders IH]; intros current Hall;
    [reflexivity|].
  rewrite ensureFolders_cons. cbn [currents] in Hall.
  destruct (Hall _ (list_elem_of_here _ _)) as [e ->].
  apply IH. intros p Hp. apply Hall. by apply list_elem_of_further.
Qed.

Lemma append_assoc (a b c : string) : (a +:+ b) +:+ c = a +:+ (b +:+ c).
Proof.
  induction a as [|x a IH]; [done|].
  change (String x ((a +:+ b) +:+ c) = String x (a +:+ (b +:+ c))).
  by rewrite IH.
Qed.

Lemma append_empty_r (a : string) : a +:+ "" = a.
Proof.
  induction a as [|x a IH]; [done|].
  change (String x (a +:+ "") = String x a). by rewrite IH.
Qed.

Lemma append_nonempty (a b : string) : a ≠ "" → a +:+ b ≠ "".
Proof. by destruct a. Qed.

Lemma extend_nonempty current folder :
  current ≠ "" →
  BoardCommands.extend current folder = current +:+ ("/" +:+ folder).
Proof.
  intros Hne. unfold BoardCommands.extend.
  by destruct (String.eqb_spec current "").
Qed.

Lemma split_cons (s : string) : ∃ piece pieces, BoardCommands.split s = piece :: pieces.
Proof.
  induction s as [|c s (piece & pieces & IH)]; cbn [BoardCommands.split];
    [by eauto|].
  destruct (Ascii.eqb c BoardCommands.slash); [by eauto|]. rewrite IH. eauto.
Qed.

(** Joining the pieces of a path gives the path back, after any prefix
    that is not empty. *)
Lemma join_split (rest : string) :
  ∀ current piece pieces,
    current ≠ "" →
    BoardCommands.split rest = piece :: pieces →
    last ((current +:+ piece) :: currents pieces (current +:+ piece))
    = Some (current +:+ rest).
Proof.
  induction rest as [|c rest IH]; intros current piece pieces Hne;
    cbn [BoardCommands.split].
  - intros [= <- <-]. cbn [currents last]. by rewrite append_empty_r.
  - destruct (Ascii.eqb_spec c BoardCommands.slash) as [->|Hc].
    + intros [= <- <-]. rewrite append_empty_r.
      destruct (split_cons rest) as (piece' & pieces' & Hs). rewrite Hs.
      cbn [currents]. rewrite extend_nonempty by done.
      rewrite <- append_assoc. rewrite last_cons_cons.
      rewrite (IH (current +:+ "/") piece' pieces'); [|by apply append_nonempty|done].
      by rewrite append_assoc.
    + destruct (split_cons rest) as (piece' & pieces' & Hs). rewrite Hs.
      intros [= <- <-].
      replace (current +:+ String c piece')
        with ((current +:+ String c "") +:+ piece')
        by (by rewrite append_assoc).
      rewrite (IH (current +:+ String c "") piece' pieces');
        [|by apply append_nonempty|done].
      by rewrite append_assoc.
Qed.

Lemma last_current (path : string) c rest :
  path = String c rest → c ≠ BoardCommands.slash →
  last (currents (BoardCommands.split path) "") = Some path.
Proof.
  intros -> Hc. cbn [BoardCommands.split].
  destruct (Ascii.eqb_spec c BoardCommands.slash); [done|].
  destruct (split_cons rest) as (piece & pieces & Hs). rewrite Hs.
  cbn [currents]. unfold BoardCommands.extend at 1 2. cbn [String.eqb].
  change ("" +:+ "" +:+ String c piece) with (String c "" +:+ piece).
  by rewrite (join_split rest (String c "") piece pieces).
Qed.

(** X21: [ensureFolder] never throws and only adds folders: every entry of
    the vault stays as it was, an entry that appears is a folder, and
    nothing else of the world changes.  Afterwards every intermediate path
    of the loop exists; for a path that does not begin with a slash the
    last of them is the path itself, so the path exists. *)
Theorem X21_ensureFolder_effect (path : string) w :
  ∃ w',
    BoardCommands.ensureFolder path w = (Ok tt, w')
    ∧ (dataview w' = dataview w ∧ clock w' = clock w
       ∧ console w' = console w ∧ queries w' = queries w)
    ∧ (∀ p e, vault w !! p = Some e → vault w' !! p = Some e)
    ∧ (∀ p, vault w !! p = None →
            vault w' !! p = None ∨ vault w' !! p = Some Folder)
    ∧ (∀ p, p ∈ currents (BoardCommands.split path) "" →
            is_Some (vault w' !! p))
    ∧ (∀ c rest, path = String c rest → c ≠ BoardCommands.slash →
                 is_Some (vault w' !! path)).
Proof.
  destruct (ensureFolders_effect (BoardCommands.split path) "" w)
    as (w' & Hrun & Hsame & Hkeep & Hnew & Hcur).
  exists w'. split; [exact Hrun|]. split; [exact Hsame|].
  split; [exact Hkeep|]. split; [exact Hnew|]. split; [exact Hcur|].
  intros c rest Hpath Hc. apply Hcur.
  pose proof (last_current path c rest Hpath Hc) as Hlast.
  by apply last_Some_elem_of in Hlast.
Qed.

(** X22: [ensureFolder] is idempotent: run again on the world it leaves,
    it changes nothing. *)
Theorem X22_ensureFolder_idempotent (path : string) w w' :
  BoardCommands.ensureFolder path w = (Ok tt, w') →
  BoardCommands.ensureFolder path w' = (Ok tt, w').
Proof.
  intros Hrun.
  destruct (ensureFolders_effect (BoardCommands.split path) "" w)
    as (w'' & Hrun' & _ & _ & _ & Hcur).
  unfold BoardCommands.ensureFolder in *. rewrite Hrun' in Hrun.
  injection Hrun as <-. by apply ensureFolders_present.
Qed.

Lemma sanitize_chars (name : string) :
  chars (BoardCommands.sanitize name)
  = (λ c, if BoardCommands.forbidden c then Ascii.ascii_of_nat 45 else c)
    <$> chars name.
Proof. induction name as [|c name IH]; [done|]. cbn. by rewrite IH. Qed.

(** X23: the sanitized name of a card has the length of the name and holds
    none of the nine characters of the class (so no path separator); a name
    without such a character is left as it is, and sanitizing twice is
    sanitizing once. *)
Theorem X23_sanitized_name (name : string) :
  String.length (BoardCommands.sanitize name) = String.length name
  ∧ (∀ c, c ∈ chars (BoardCommands.sanitize name) →
          BoardCommands.forbidden c = false)
  ∧ ((∀ c, c ∈ chars name → BoardCommands.forbidden c = false) →
     BoardCommands.sanitize name = name)
  ∧ BoardCommands.sanitize (BoardCommands.sanitize name)
    = BoardCommands.sanitize name.
Proof.
  assert (∀ s, (∀ c, c ∈ chars s → BoardCommands.forbidden c = false) →
               BoardCommands.sanitize s = s) as Hclean.
  { induction s as [|c s IH]; [done|]. intros Hall.
    cbn [BoardCommands.sanitize].
    rewrite (Hall c) by apply list_elem_of_here.
    f_equal. apply IH. intros c' Hc'. apply Hall. by apply list_elem_of_further. }
  assert (∀ c, c ∈ chars (BoardCommands.sanitize name) →
               BoardCommands.forbidden c = false) as Hnone.
  { intros c. rewrite sanitize_chars.
    intros (c0 & -> & _)%list_elem_of_fmap.
    by destruct (BoardCommands.forbidden c0) eqn:Hc0. }
  assert (∀ s, String.length (BoardCommands.sanitize s) = String.length s)
    as Hlen.
  { induction s as [|c s IH]; [done|].
    cbn [BoardCommands.sanitize String.length]. by rewrite IH. }
  split; [apply Hlen|]. split; [exact Hnone|]. split; [apply Hclean|].
  apply Hclean, Hnone.
Qed.

End folders.

Lemma X22_ensureFolder_idempotent_witness :
  ∃ w',
    BoardCommands.ensureFolder "Cards/2026/q1" Fixture.world = (Ok tt, w')
    ∧ vault w' !! "Cards/2026" = Some Folder
    ∧ BoardCommands.ensureFolder "Cards/2026/q1" w' = (Ok tt, w').
Proof.
  eexists. split; [vm_compute; reflexivity|]. split; [vm_compute; reflexivity|].
  apply (X22_ensureFolder_idempotent "Cards/2026/q1" Fixture.world).
  vm_compute. reflexivity.
Defined.

(* ===================================================================== *)
(** ** Further properties: the commands and the post-processor *)
(* ===================================================================== *)

Section commands_more.

Context `{TextOps}.
Implicit Types (w : World) (fm : Object) (cfg : BoardConfig).

Lemma or_else_truthy a b : truthy b = true → truthy (or_else a b) = true.
Proof. intros Hb. unfold or_else. by destruct (truthy a) eqn:Ha. Qed.

Lemma first_falsy x :
  truthy x = false → BoardCommands.first x = Undefined.
Proof.
  destruct x as [| |b|n| |s|items|o]; try done.
  destruct s; [done|]. discriminate.
Qed.

(** X24: the status the command [createCard] gives a new card is never
    empty and never throws; where the board's frontmatter parses, it is the
    status of the first parsed column when that one is truthy, and "todo"
    otherwise (no column, or a first column without status). *)
Theorem X24_first_column_status fm :
  truthy (BoardCommands.firstColumnStatus fm) = true
  ∧ ∀ cache cfg,
      frontmatter cache = Some fm →
      BoardParser.parseBoardConfig cache = Ok (Some cfg) →
      BoardCommands.firstColumnStatus fm
      = match columns cfg with
        | c0 :: _ => if truthy (status c0) then status c0 else Str "todo"
        | [] => Str "todo"
        end.
Proof.
  split; [by apply or_else_truthy|].
  intros cache cfg Hfm
    (fm' & items & Hfm' & _ & Hitems & Hnn & ->)%parseBoardConfig_Some.
  assert (fm' = fm) as -> by congruence. clear Hfm'.
  cbn [columns]. unfold BoardCommands.firstColumnStatus.
  unfold or_else in Hitems.
  destruct (truthy (field fm "columns")) eqn:Hc.
  - rewrite Hitems. destruct items as [|col items]; [reflexivity|].
    cbn [BoardCommands.first head default from_option id fmap list_fmap].
    cbn [status columnOf]. unfold or_else.
    destruct (truthy (opt_prop col "status")) eqn:Hs; [by rewrite Hs|].
    reflexivity.
  - injection Hitems as <-. by rewrite first_falsy.
Qed.

(** X25: the post-processor leaves a document alone, silently: when the
    Dataview engine is required and absent, and when the source path is not
    that of a board document (no such file, a folder, a document without
    frontmatter or with another [type]), it returns without a view and the
    world is unchanged. *)
Theorem X25_post_processor_skips requireDataview sourcePath w :
  (requireDataview = true ∧ dataview w = None)
  ∨ (∀ f, getAbstractFileByPath w sourcePath = Some (AFile f) →
          BoardParser.isBoardFile (getFileCache w f) = false) →
  Main.processKanbanBoard requireDataview sourcePath w = (Ok None, w).
Proof.
  intros Hcase. unfold Main.processKanbanBoard. rewrite m_bind_run. cbn [ask].
  unfold DataviewHelper.isAvailable.
  destruct Hcase as [[-> Hnone]|Hnot]; [by rewrite Hnone|].
  destruct (requireDataview && negb _); [done|].
  destruct (getAbstractFileByPath w sourcePath) as [[|f]|] eqn:Hf; try done.
  by rewrite (Hnot f).
Qed.



End commands_more.

Section tags.

Lemma mapM_length {A B} (f : A → Res B) (l : list A) (k : list B) :
  mapM f l = Ok k → length k = length l.
Proof. intros Hm%mapM_Ok_inv. symmetry. by eapply Forall2_length. Qed.

(** X28: when [renderTags] returns, it has made at most four spans: one per
    tag up to three tags, and beyond three tags a fourth span that reads
    "+n", n being the number of tags not shown. *)
Theorem X28_at_most_four_tag_spans (tags : list Val) (spans : list string) :
  CardRenderer.renderTags tags = Ok spans →
  length spans ≤ 4
  ∧ (length tags ≤ 3 → length spans = length tags)
  ∧ (3 < length tags →
     length spans = 4
     ∧ last spans = Some ("+" +:+ pretty (length tags - 3))).
Proof.
  unfold CardRenderer.renderTags.
  destruct (mapM CardRenderer.tagText (take 3 tags)) as [shown|e] eqn:Hm;
    [|done].
  rewrite bind_Ok. intros [= <-]. apply mapM_length in Hm.
  rewrite length_take in Hm. rewrite length_app, Hm.
  destruct (3 <? length tags) eqn:Hlt.
  - apply Nat.ltb_lt in Hlt. cbn [length]. split; [lia|]. split; [lia|].
    intros _. split; [lia|]. by rewrite last_snoc.
  - apply Nat.ltb_ge in Hlt. cbn [length]. split; [lia|]. split; lia.
Qed.

End tags.

Lemma X25_post_processor_skips_witness :
  BoardParser.isBoardFile
    (getFileCache Fixture.world (mkTFile "note.md" "note")) = false
  ∧ @Main.processKanbanBoard Sample.plainText false "note.md" Fixture.world
    = (Ok None, Fixture.world)
  ∧ @Main.processKanbanBoard Sample.plainText true "empty.md" Fixture.world
    = (Ok None, Fixture.world).
Proof.
  split; [reflexivity|]. split.
  - apply (@X25_post_processor_skips Sample.plainText). right.
    intros f Hf. vm_compute in Hf. injection Hf as <-. reflexivity.
  - apply (@X25_post_processor_skips Sample.plainText). left. done.
Defined.



Lemma X28_at_most_four_tag_spans_witness :
  CardRenderer.renderTags
    [Str "#urgent"; Str "home"; Str "a#b"; Num 7; Null]
  = Ok ["urgent"; "home"; "ab"; "+2"]
  ∧ length ["urgent"; "home"; "ab"; "+2"] ≤ 4.
Proof.
  assert (CardRenderer.renderTags
            [Str "#urgent"; Str "home"; Str "a#b"; Num 7; Null]
          = Ok ["urgent"; "home"; "ab"; "+2"]) as Hrun
    by (vm_compute; reflexivity).
  split; [exact Hrun|].
  exact (proj1 (X28_at_most_four_tag_spans _ _ Hrun)).
Defined.

(* ===================================================================== *)
(** ** Further properties: drawing the board *)
(* ===================================================================== *)

Section drawing.

Context `{TextOps}.
Implicit Types (w : World) (v : BoardView.View) (card : CardData).

Lemma mapM_tagText (l : list Val) :
  (∃ k, mapM CardRenderer.tagText l = Ok k) ↔ forallb isString l = true.
Proof.
  induction l as [|tag l IH]; cbn [mapM forallb];
    [split; [done | by exists []]|].
  destruct tag as [| |b|n| |s|items|o]; cbn [CardRenderer.tagText isString];
    try (split; [by intros [k ?] | done]).
  rewrite bind_Ok, andb_true_l, <- IH.
  destruct (mapM CardRenderer.tagText l) as [k|e].
  - rewrite bind_Ok. split; intros _; by eexists.
  - split; by intros [k ?].
Qed.

Lemma renderTagsOf_Arr (items : list Val) :
  CardRenderer.renderTagsOf (Arr items) = Ok tt
  ↔ forallb isString (take 3 items) = true.
Proof.
  rewrite <- mapM_tagText. cbn [CardRenderer.renderTagsOf].
  unfold CardRenderer.renderTags.
  destruct (mapM CardRenderer.tagText (take 3 items)) as [k|e].
  - split; [by eauto | reflexivity].
  - split; [done | by intros [k ?]].
Qed.

Lemma renderAssignee_drawable (assignee : Val) :
  truthy assignee = true →
  CardRenderer.renderAssignee assignee = Ok tt
  ↔ drawableAssignee assignee = true.
Proof.
  intros Ha. unfold drawableAssignee. rewrite Ha. cbn [negb orb].
  unfold CardRenderer.renderAssignee.
  destruct assignee as [| |b|n| |s|items|o];
    try discriminate Ha; cbn [isString orb prop]; rewrite ?bind_Ok;
    try done.
  by destruct (field o "path").
Qed.

Lemma drawn_tags (tags : Val) :
  (if truthy tags && positive (opt_prop tags "length")
   then CardRenderer.renderTagsOf tags else Ok tt) = Ok tt
  ↔ drawableTags tags = true.
Proof.
  destruct tags as [| |b|n| |s|items|o]; cbn [truthy andb]; try done.
  - by destruct b.
  - by destruct (negb (n =? 0)%Z).
  - cbn [drawableTags]. destruct (String.eqb_spec s "") as [->|Hs]; [done|].
    change (opt_prop (Str s) "length")
      with (Num (Z.of_nat (String.length s))).
    cbn [negb andb positive].
    assert ((0 <? Z.of_nat (String.length s))%Z = true) as ->.
    { apply Z.ltb_lt. destruct s; [done|]. cbn [String.length]. lia. }
    done.
  - change (opt_prop (Arr items) "length")
      with (Num (Z.of_nat (length items))).
    cbn [drawableTags positive].
    destruct items as [|tag items]; [done|].
    assert ((0 <? Z.of_nat (length (tag :: items)))%Z = true) as ->
      by (apply Z.ltb_lt; cbn [length]; lia).
    apply renderTagsOf_Arr.
  - change (opt_prop (Obj o) "length") with (field o "length").
    cbn [drawableTags].
    by destruct (positive (field o "length")).
Qed.

Lemma renderBoard_Throw v :
  (∃ e, BoardView.renderBoard v = Throw e)
  ↔ ∃ col card e, col ∈ BoardView.view_columns v ∧ card ∈ cards col
                  ∧ CardRenderer.render card = Throw e.
Proof.
  assert (∀ col, (∃ e, ColumnRenderer.render (config col) (cards col) = Throw e)
                 ↔ ∃ card, card ∈ cards col
                           ∧ ∃ e, CardRenderer.render card = Throw e) as Hcol.
  { intros col. rewrite <- mapM_Throw. unfold ColumnRenderer.render.
    destruct (mapM CardRenderer.render (cards col)) as [k|e].
    - rewrite bind_Ok. split; by intros [e ?].
    - split; by eauto. }
  unfold BoardView.renderBoard.
  set (draw := λ column, ColumnRenderer.render (config column) (cards column)).
  transitivity (∃ e, mapM draw (BoardView.view_columns v) = Throw e).
  { destruct (mapM draw (BoardView.view_columns v)) as [k|e].
    - rewrite bind_Ok. split; by intros [e ?].
    - split; by eauto. }
  rewrite mapM_Throw. split.
  - intros (col & Hin & Hthrow). apply Hcol in Hthrow as (card & Hcard & e & He).
    eauto 6.
  - intros (col & card & e & Hin & Hcard & He). exists col. split; [done|].
    apply Hcol. eauto.
Qed.

(** X29: a card can be drawn exactly when its assignee is missing, empty, a
    string or an object whose [path] is a string, and its tags are missing,
    a list whose first three entries are strings, or a value that has no
    length above zero; any other card makes [CardRenderer.render] throw.  A
    tags field that is one non-empty word, not a list, is such a case. *)
Theorem X29_cards_that_can_be_drawn card :
  (CardRenderer.render card = Ok tt
   ↔ drawableAssignee (field (metadata card) "assignee") = true
     ∧ drawableTags (field (metadata card) "tags") = true)
  ∧ (∀ s, field (metadata card) "tags" = Str s → s ≠ "" →
          ∃ e, CardRenderer.render card = Throw e).
Proof.
  assert (CardRenderer.render card = Ok tt
          ↔ drawableAssignee (field (metadata card) "assignee") = true
            ∧ drawableTags (field (metadata card) "tags") = true) as Hiff.
  { unfold CardRenderer.render. rewrite <- drawn_tags.
    destruct (truthy (field (metadata card) "assignee")) eqn:Ha.
    - rewrite <- (renderAssignee_drawable _ Ha).
      destruct (CardRenderer.renderAssignee _) as [[]|e].
      + rewrite bind_Ok. tauto.
      + split; [done | by intros [? _]].
    - rewrite bind_Ok. unfold drawableAssignee. rewrite Ha. cbn [negb orb].
      tauto. }
  split; [exact Hiff|]. intros s Htags Hs.
  destruct (CardRenderer.render card) as [[]|e]; [|by eauto].
  destruct (proj1 Hiff eq_refl) as [_ Hdraw]. rewrite Htags in Hdraw.
  cbn [drawableTags] in Hdraw. by apply String.eqb_eq in Hdraw.
Qed.

(** X30: on a valid board whose cards have been loaded, [render] returns
    with the loaded cards and columns in the view, and shows the board
    exactly when every card of every column can be drawn.  One card in a
    column that cannot be drawn takes the whole board away: the container
    ends with an error element and the fault is written to the console.  A
    card that is in no column is not drawn and does no harm. *)
Theorem X30_one_card_breaks_the_board v w v1 w1 :
  isValid (BoardView.view_config v) = true →
  BoardView.loadCards (BoardView.with_container v BoardView.Loading) w
  = (Ok v1, w1) →
  ∃ v' w',
    BoardView.render v w = (Ok v', w')
    ∧ BoardView.view_cards v' = BoardView.view_cards v1
    ∧ BoardView.view_columns v' = BoardView.view_columns v1
    ∧ ((∀ col card, col ∈ BoardView.view_columns v1 → card ∈ cards col →
                    CardRenderer.render card = Ok tt) →
       BoardView.container v' = BoardView.Board (BoardView.view_columns v1)
       ∧ w' = w1)
    ∧ (∀ col card e, col ∈ BoardView.view_columns v1 → card ∈ cards col →
                     CardRenderer.render card = Throw e →
       ∃ e', BoardView.container v'
             = BoardView.BoardError ("Error: " +:+ errorMessage e')
             ∧ w' = withLog w1 "Board render error:" (LogThrown e')).
Proof.
  intros Hvalid Hload. rewrite render_valid, Hload by done.
  destruct (BoardView.renderBoard v1) as [[]|e'] eqn:Hdraw.
  - eexists _, _. split; [reflexivity|]. split; [reflexivity|].
    split; [reflexivity|]. split; [done|].
    intros col card e Hcol Hcard He.
    destruct (proj2 (renderBoard_Throw v1)) as [e0 He0]; [by eauto 6|].
    congruence.
  - eexists _, _. split; [reflexivity|]. split; [reflexivity|].
    split; [reflexivity|]. split; [|by eauto].
    intros Hall.
    destruct (proj1 (renderBoard_Throw v1)) as (col & card & e & Hcol & Hcard & He);
      [by eauto|].
    rewrite (Hall col card Hcol Hcard) in He. discriminate He.
Qed.

End drawing.

Lemma X30_one_card_breaks_the_board_witness :
  isValid Sample.threeColumns = true
  ∧ ∃ v' w' e',
      @BoardView.render Sample.plainText (SampleWorld.view Sample.threeColumns)
        Fixture.taggedWorld = (Ok v', w')
      ∧ length (BoardView.view_columns v') = 3
      ∧ BoardView.container v'
        = BoardView.BoardError ("Error: " +:+ errorMessage e').
Proof.
  assert (isValid Sample.threeColumns = true) as Hvalid
    by (vm_compute; reflexivity).
  split; [exact Hvalid|].
  destruct (@BoardView.loadCards Sample.plainText
              (BoardView.with_container (SampleWorld.view Sample.threeColumns)
                 BoardView.Loading) Fixture.taggedWorld)
    as [[v1|e1] w1] eqn:Hload; [|vm_compute in Hload; discriminate Hload].
  destruct (@X30_one_card_breaks_the_board Sample.plainText
              (SampleWorld.view Sample.threeColumns) Fixture.taggedWorld v1 w1
              Hvalid Hload)
    as (v' & w' & Hrun & _ & Hcolumns & _ & Hbroken).
  vm_compute in Hload. injection Hload as <- <-.
  destruct (Hbroken _ _ _ (list_elem_of_here _ _) (list_elem_of_here _ _)
              eq_refl) as (e' & Hshow & _).
  exists v', w', e'. split; [exact Hrun|]. split; [by rewrite Hcolumns|].
  exact Hshow.
Defined.
